(** * JSAlert: the dialog lifecycle

    A shallow embedding of the [JSAlert] class (the main class of the
    package, [src/js/index.js] in its repository): its constructor, the
    configuration methods, [show], [dismiss], [dismissIn], the keyboard
    handler [handleEvent], the pointer handlers installed by [createPopup]
    and the four static convenience constructors.

    The world holds the global state the class touches (the [window]
    global, the console, the shared popup queue, timers, promises and the
    microtask queue) next to one Dialog instance, the receiver [this] of the
    instance methods.  Other Dialogs appear only as identities inside the
    popup queue.  A ghost [trace] records what an observer can see:
    emissions, button callbacks and [preventDefault] calls. *)

From Stdlib Require Import List String ZArith Bool Lia Arith.
From Stdlib Require Import DecimalString.
Import ListNotations.
Open Scope string_scope.
Open Scope list_scope.

(** ** JavaScript values *)

Inductive JSValue : Type :=
| VUndefined
| VNull
| VBool (b : bool)
| VNum (z : Z)
| VStr (s : string).

(** [typeof v == "undefined"] *)
Definition typeof_undefined (v : JSValue) : bool :=
  match v with VUndefined => true | _ => false end.

(** ToBoolean, as used by [!x], [x || y] and [x && y]. *)
Definition truthy (v : JSValue) : bool :=
  match v with
  | VUndefined | VNull => false
  | VBool b => b
  | VNum z => negb (z =? 0)%Z
  | VStr s => negb (s =? "")
  end.

(** [a || b] *)
Definition js_or (a b : JSValue) : JSValue := if truthy a then a else b.

(** A parameter with a default value ([closeText = "Close"]): the default is
    taken exactly when the argument is [undefined]. *)
Definition default_arg (v d : JSValue) : JSValue :=
  if typeof_undefined v then d else v.

(** [v == lit] for the two role literals the class compares against,
    ["default"] and ["cancel"].  Neither is a numeric string, so among the
    values of [JSValue] only the very same string is loosely equal to it. *)
Definition loose_eq_literal (v : JSValue) (lit : string) : bool :=
  match v with VStr s => s =? lit | _ => false end.

(** ToString, as used by ["Alert: " + text] and by assigning to the [value]
    of an input element.  [VNum z] stands for the integer [z] as a JavaScript
    number, and the digits are those JavaScript prints for a magnitude below
    [10^21]; from there on JavaScript prints an exponent form, which is not
    modelled. *)
Definition to_string (v : JSValue) : string :=
  match v with
  | VUndefined => "undefined"
  | VNull => "null"
  | VBool true => "true"
  | VBool false => "false"
  | VNum z => NilZero.string_of_int (Z.to_int z)
  | VStr s => s
  end.

Inductive JSError : Type :=
| ReferenceError (name : string)
| TypeError (what : string).

(** ** The data model *)

Inductive PromiseState : Type :=
| Pending
| Fulfilled (v : JSValue)
| Rejected (e : JSError).

Module Button.
(** One entry of [this.buttons].  [callback] is the resolver of the promise
    [addButton] returned; the promise is kept by its index in the world's
    promise store. *)
Record t : Type := mk
  { text : JSValue;
    value : JSValue;
    type : JSValue;
    callback : nat }.
End Button.

Module TextField.
(** One entry of [this.textFields]; [elem] is the [value] of the input
    element once [createPopup] has built it. *)
Record t : Type := mk
  { value : JSValue;
    type : JSValue;
    placeholder : JSValue;
    elem : option string }.

Definition with_elem (e : option string) (f : t) : t :=
  mk (value f) (type f) (placeholder f) e.
End TextField.

(** The part of [this.elems] the lifecycle reads: whether the container and
    the background exist, and whether they have been faded out. *)
Record Elems : Type := mkElems
  { background : bool;
    container : bool;
    faded : bool }.

(** What a listener registered on the Dialog does when it is invoked.
    [HDismiss r] is caller code that re-enters [this.dismiss(r)];
    [HResolve p] is the listener behind [when(name)], resolving promise [p]
    with the payload. *)
Inductive Handler : Type :=
| HDismiss (outcome : JSValue)
| HResolve (p : nat).

Record JSAlert : Type := mkJSAlert
  { oid : nat;
    elems : Elems;
    title : JSValue;
    text : JSValue;
    buttons : list Button.t;
    textFields : list TextField.t;
    result : JSValue;
    iconURL : JSValue;
    cancelable : JSValue;
    cancelled : bool;
    dismissed : bool;
    listeners : list (string * Handler) }.

(** The functions passed to [then]. [PromptThen] is the arrow function of
    [prompt]; [Identity] passes the payload on. *)
Inductive Closure : Type :=
| PromptThen
| Identity.

Record Reaction : Type := mkReaction
  { source : nat;
    func : Closure;
    derived : nat }.

Inductive Timer : Type :=
| TDismiss (dialog : nat) (time : JSValue)
| TRemoveElements (dialog : nat)
| TAnimate (dialog : nat).

Inductive Job : Type :=
| JReaction (f : Closure) (payload : JSValue) (target : nat)
| JAdmit (dialog : nat).

Inductive Event : Type :=
| Emitted (name : string) (payload : JSValue)
| Called (button : nat) (arg : JSValue)
| PreventDefault.

Record World : Type := mkWorld
  { window : bool;
    console : list string;
    popupQueue : list nat;
    keydown : list nat;
    timers : list Timer;
    promises : list PromiseState;
    reactions : list Reaction;
    microtasks : list Job;
    next_oid : nat;
    trace : list Event;
    this : JSAlert }.

(** *** Field updates *)

Definition with_elems (x : Elems) (d : JSAlert) : JSAlert :=
  mkJSAlert (oid d) x (title d) (text d) (buttons d) (textFields d)
    (result d) (iconURL d) (cancelable d) (cancelled d) (dismissed d)
    (listeners d).
Definition with_buttons (x : list Button.t) (d : JSAlert) : JSAlert :=
  mkJSAlert (oid d) (elems d) (title d) (text d) x (textFields d)
    (result d) (iconURL d) (cancelable d) (cancelled d) (dismissed d)
    (listeners d).
Definition with_textFields (x : list TextField.t) (d : JSAlert) : JSAlert :=
  mkJSAlert (oid d) (elems d) (title d) (text d) (buttons d) x
    (result d) (iconURL d) (cancelable d) (cancelled d) (dismissed d)
    (listeners d).
Definition with_result (x : JSValue) (d : JSAlert) : JSAlert :=
  mkJSAlert (oid d) (elems d) (title d) (text d) (buttons d) (textFields d)
    x (iconURL d) (cancelable d) (cancelled d) (dismissed d) (listeners d).
Definition with_iconURL (x : JSValue) (d : JSAlert) : JSAlert :=
  mkJSAlert (oid d) (elems d) (title d) (text d) (buttons d) (textFields d)
    (result d) x (cancelable d) (cancelled d) (dismissed d) (listeners d).
Definition with_cancelable (x : JSValue) (d : JSAlert) : JSAlert :=
  mkJSAlert (oid d) (elems d) (title d) (text d) (buttons d) (textFields d)
    (result d) (iconURL d) x (cancelled d) (dismissed d) (listeners d).
Definition with_cancelled (x : bool) (d : JSAlert) : JSAlert :=
  mkJSAlert (oid d) (elems d) (title d) (text d) (buttons d) (textFields d)
    (result d) (iconURL d) (cancelable d) x (dismissed d) (listeners d).
Definition with_dismissed (x : bool) (d : JSAlert) : JSAlert :=
  mkJSAlert (oid d) (elems d) (title d) (text d) (buttons d) (textFields d)
    (result d) (iconURL d) (cancelable d) (cancelled d) x (listeners d).
Definition with_listeners (x : list (string * Handler)) (d : JSAlert)
  : JSAlert :=
  mkJSAlert (oid d) (elems d) (title d) (text d) (buttons d) (textFields d)
    (result d) (iconURL d) (cancelable d) (cancelled d) (dismissed d) x.

Definition with_console (x : list string) (w : World) : World :=
  mkWorld (window w) x (popupQueue w) (keydown w) (timers w) (promises w)
    (reactions w) (microtasks w) (next_oid w) (trace w) (this w).
Definition with_popupQueue (x : list nat) (w : World) : World :=
  mkWorld (window w) (console w) x (keydown w) (timers w) (promises w)
    (reactions w) (microtasks w) (next_oid w) (trace w) (this w).
Definition with_keydown (x : list nat) (w : World) : World :=
  mkWorld (window w) (console w) (popupQueue w) x (timers w) (promises w)
    (reactions w) (microtasks w) (next_oid w) (trace w) (this w).
Definition with_timers (x : list Timer) (w : World) : World :=
  mkWorld (window w) (console w) (popupQueue w) (keydown w) x (promises w)
    (reactions w) (microtasks w) (next_oid w) (trace w) (this w).
Definition with_promises (x : list PromiseState) (w : World) : World :=
  mkWorld (window w) (console w) (popupQueue w) (keydown w) (timers w) x
    (reactions w) (microtasks w) (next_oid w) (trace w) (this w).
Definition with_reactions (x : list Reaction) (w : World) : World :=
  mkWorld (window w) (console w) (popupQueue w) (keydown w) (timers w)
    (promises w) x (microtasks w) (next_oid w) (trace w) (this w).
Definition with_microtasks (x : list Job) (w : World) : World :=
  mkWorld (window w) (console w) (popupQueue w) (keydown w) (timers w)
    (promises w) (reactions w) x (next_oid w) (trace w) (this w).
Definition with_next_oid (x : nat) (w : World) : World :=
  mkWorld (window w) (console w) (popupQueue w) (keydown w) (timers w)
    (promises w) (reactions w) (microtasks w) x (trace w) (this w).
Definition with_trace (x : list Event) (w : World) : World :=
  mkWorld (window w) (console w) (popupQueue w) (keydown w) (timers w)
    (promises w) (reactions w) (microtasks w) (next_oid w) x (this w).
Definition with_this (x : JSAlert) (w : World) : World :=
  mkWorld (window w) (console w) (popupQueue w) (keydown w) (timers w)
    (promises w) (reactions w) (microtasks w) (next_oid w) (trace w) x.

(** ** A state and exception monad

    A method either returns, throws (the world at the [throw] is kept: what
    was assigned before an exception stays assigned) or, for the methods that
    can re-enter themselves through a listener, runs out of fuel. *)

Inductive Outcome (A : Type) : Type :=
| Returned (a : A) (w : World)
| Thrown (e : JSError) (w : World)
| OutOfFuel.
Arguments Returned {A} a w.
Arguments Thrown {A} e w.
Arguments OutOfFuel {A}.

Definition M (A : Type) : Type := World -> Outcome A.

Definition ret {A} (a : A) : M A := fun w => Returned a w.
Definition bind {A B} (m : M A) (k : A -> M B) : M B :=
  fun w =>
    match m w with
    | Returned a w' => k a w'
    | Thrown e w' => Thrown e w'
    | OutOfFuel => OutOfFuel
    end.
Definition throw {A} (e : JSError) : M A := fun w => Thrown e w.
Definition get : M World := fun w => Returned w w.
Definition modify (f : World -> World) : M unit := fun w => Returned tt (f w).
Definition modify_this (f : JSAlert -> JSAlert) : M unit :=
  modify (fun w => with_this (f (this w)) w).
Definition when_ (b : bool) (m : M unit) : M unit := if b then m else ret tt.

Declare Scope js_scope.
Delimit Scope js_scope with js.
Notation "x <- m ;; k" := (bind m (fun x => k))
  (at level 61, m at next level, right associativity) : js_scope.
Notation "m ;; k" := (bind m (fun _ => k))
  (at level 61, right associativity) : js_scope.
Open Scope js_scope.

Definition log (e : Event) : M unit :=
  modify (fun w => with_trace (trace w ++ [e]) w).

(** ** Lists as JavaScript arrays *)

Fixpoint list_update {A} (n : nat) (x : A) (l : list A) : list A :=
  match l, n with
  | [], _ => []
  | _ :: tl, O => x :: tl
  | y :: tl, S m => y :: list_update m x tl
  end.

Definition remove_nat (n : nat) (l : list nat) : list nat :=
  filter (fun m => negb (Nat.eqb m n)) l.

Definition mem_nat (n : nat) (l : list nat) : bool :=
  existsb (Nat.eqb n) l.

(** ** Promises and the microtask queue

    Promises live in a store and are named by their index.  A promise is
    settled once; settling it queues one job per reaction attached by
    [then]. *)

Definition new_promise (s : PromiseState) : M nat :=
  w <- get ;;
  modify (with_promises (promises w ++ [s])) ;;
  ret (List.length (promises w)).

Definition enqueue (js : list Job) : M unit :=
  modify (fun w => with_microtasks (microtasks w ++ js) w).

Definition reaction_jobs (p : nat) (v : JSValue) (rs : list Reaction)
  : list Job :=
  map (fun r => JReaction (func r) v (derived r))
      (filter (fun r => Nat.eqb (source r) p) rs).

(** The resolver of promise [p], called with [v]. *)
Definition resolve_promise (p : nat) (v : JSValue) : M unit :=
  w <- get ;;
  match nth_error (promises w) p with
  | Some Pending =>
      modify (with_promises (list_update p (Fulfilled v) (promises w))) ;;
      enqueue (reaction_jobs p v (reactions w))
  | _ => ret tt
  end.

(** [Promise.resolve(v)] *)
Definition Promise_resolve (v : JSValue) : M nat := new_promise (Fulfilled v).

(** [p.then(f)] *)
Definition promise_then (p : nat) (f : Closure) : M nat :=
  q <- new_promise Pending ;;
  w <- get ;;
  match nth_error (promises w) p with
  | Some (Fulfilled v) => enqueue [JReaction f v q]
  | Some (Rejected e) =>
      modify (with_promises (list_update q (Rejected e) (promises w)))
  | _ => modify (with_reactions (reactions w ++ [mkReaction p f q]))
  end ;;
  ret q.

(** [setTimeout(f, delay)]: the timer is recorded; the host fires it later. *)
Definition setTimeout (t : Timer) : M unit :=
  modify (fun w => with_timers (timers w ++ [t]) w).

(** [console.log(s)] returns [undefined]. *)
Definition console_log (s : string) : M JSValue :=
  modify (fun w => with_console (console w ++ [s]) w) ;;
  ret VUndefined.

(** Reading the global [window] (or [document]) where there is none throws. *)
Definition require_global (name : string) : M unit :=
  w <- get ;;
  if window w then ret tt else throw (ReferenceError name).

(** ** EventSource *)

(** Modelled from the spec: [event-source.js] (the [EventSource] base class)
    is not among the sources.  [on(eventName, handler)] registers the handler
    after those already registered. *)
Definition on (name : string) (h : Handler) : M unit :=
  modify_this (fun d => with_listeners (listeners d ++ [(name, h)]) d).

(** Modelled from the spec: [event-source.js] is not among the sources.
    [when(eventName)] returns a single-resolution future that completes with
    the first emission's payload. *)
Definition when (name : string) : M nat :=
  p <- new_promise Pending ;;
  on name (HResolve p) ;;
  ret p.

Definition handlers_for (name : string) (ls : list (string * Handler))
  : list Handler :=
  map snd (filter (fun l => fst l =? name) ls).

Section Emit.
(** [this.dismiss], as the listeners see it. *)
Variable dismiss_rec : JSValue -> M unit.

Definition run_handler (payload : JSValue) (h : Handler) : M unit :=
  match h with
  | HDismiss outcome => dismiss_rec outcome
  | HResolve p => resolve_promise p payload
  end.

Fixpoint run_handlers (payload : JSValue) (hs : list Handler) : M unit :=
  match hs with
  | [] => ret tt
  | h :: tl => run_handler payload h ;; run_handlers payload tl
  end.

(** Modelled from the spec: [event-source.js] is not among the sources.
    [emit(eventName, payload)] synchronously invokes all handlers
    registered for [eventName] with [payload], in registration order, and
    does not raise when there is none. *)
Definition emit (name : string) (payload : JSValue) : M unit :=
  log (Emitted name payload) ;;
  w <- get ;;
  run_handlers payload (handlers_for name (listeners (this w))).
End Emit.

(** ** Queue *)

(** Modelled from the spec: [queue.js] (the [Queue] class) is not among the
    sources.  [add(dialog)] appends the dialog to the pending list; when the
    list was empty the dialog is admitted without delay, that is, the
    continuation of the returned future is queued as a microtask. *)
Definition Queue_add (dialog : nat) : M unit :=
  w <- get ;;
  modify (with_popupQueue (popupQueue w ++ [dialog])) ;;
  match popupQueue w with
  | [] => enqueue [JAdmit dialog]
  | _ => ret tt
  end.

(** Modelled from the spec: [queue.js] is not among the sources.
    [remove(dialog)] removes the dialog wherever it sits (an absent dialog is
    a no-op); when it was the head, admission advances to the new head. *)
Definition Queue_remove (dialog : nat) : M unit :=
  w <- get ;;
  modify (with_popupQueue (remove_nat dialog (popupQueue w))) ;;
  match popupQueue w with
  | hd :: _ =>
      if Nat.eqb hd dialog
      then match remove_nat dialog (popupQueue w) with
           | nxt :: _ => enqueue [JAdmit nxt]
           | [] => ret tt
           end
      else ret tt
  | [] => ret tt
  end.

(** ** JSAlert: construction and configuration *)

(** [constructor(text = "", title = "")] *)
Definition new_JSAlert (text title : JSValue) : M unit :=
  w <- get ;;
  modify (with_next_oid (S (next_oid w))) ;;
  modify (with_this
    {| oid := next_oid w;
       elems := mkElems false false false;
       title := default_arg title (VStr "");
       text := default_arg text (VStr "");
       buttons := [];
       textFields := [];
       result := VBool false;
       iconURL := VNull;
       cancelable := VBool true;
       cancelled := false;
       dismissed := false;
       listeners := [] |}).

Definition setIcon (icon : JSValue) : M unit :=
  modify_this (with_iconURL icon).

(** [addButton(text, value, type)]: the executor of the returned promise runs
    at once, so the button is pushed during the call. *)
Definition addButton (text value type : JSValue) : M nat :=
  p <- new_promise Pending ;;
  w <- get ;;
  modify_this (with_buttons
    (buttons (this w) ++
     [ {| Button.text := text;
          Button.value := if typeof_undefined value then text else value;
          Button.type :=
            js_or type
              (if Nat.eqb (List.length (buttons (this w))) 0
               then VStr "default" else VStr "normal");
          Button.callback := p |} ])) ;;
  ret p.

Definition addTextField (value type placeholderText : JSValue) : M unit :=
  modify_this (fun d => with_textFields
    (textFields d ++
     [ {| TextField.value := js_or value (VStr "");
          TextField.type := js_or type (VStr "text");
          TextField.placeholder := js_or placeholderText (VStr "");
          TextField.elem := None |} ]) d).

(** [getTextFieldValue(index)]; reading [.elem] of a missing entry throws. *)
Definition getTextFieldValue (index : nat) : M JSValue :=
  w <- get ;;
  match nth_error (textFields (this w)) index with
  | None => throw (TypeError "info is undefined")
  | Some info =>
      match TextField.elem info with
      | Some s => ret (VStr s)
      | None => ret (TextField.value info)
      end
  end.

(** [show()]: the continuation that renders the Dialog runs when the queue
    admits it (job [JAdmit]). *)
Definition show : M nat :=
  w <- get ;;
  Queue_add (oid (this w)) ;;
  ret (oid (this w)).

(** [then(func)] is [this.when("closed").then(func)]. *)
Definition then_ (f : Closure) : M nat :=
  p <- when "closed" ;;
  promise_then p f.

(** ** Rendering and teardown *)

Definition createBackground : M unit :=
  require_global "document" ;;
  modify_this (fun d =>
    with_elems (mkElems true (container (elems d)) (faded (elems d))) d) ;;
  w <- get ;;
  setTimeout (TAnimate (oid (this w))).

(** [createPopup()], without the styling: the container exists afterwards and
    every text field owns an input element that was given its value.  What
    the element then holds is written as the string of that value; the
    browser's sanitisation of it for the type of the field (line breaks
    stripped from a text field, a non-numeric string dropped from a number
    field) is not modelled: the properties of text fields are stated
    relative to the value the element holds. *)
Definition createPopup : M unit :=
  require_global "document" ;;
  modify_this (fun d =>
    with_elems (mkElems (background (elems d)) true (faded (elems d))) d) ;;
  w <- get ;;
  setTimeout (TAnimate (oid (this w))) ;;
  modify_this (fun d => with_textFields
    (map (fun b => TextField.with_elem (Some (to_string (TextField.value b))) b)
         (textFields d)) d).

Definition window_addEventListener : M unit :=
  require_global "window" ;;
  w <- get ;;
  if mem_nat (oid (this w)) (keydown w) then ret tt
  else modify (with_keydown (keydown w ++ [oid (this w)])).

Definition window_removeEventListener : M unit :=
  require_global "window" ;;
  w <- get ;;
  modify (with_keydown (remove_nat (oid (this w)) (keydown w))).

Definition _show : M unit :=
  createBackground ;;
  createPopup ;;
  window_addEventListener.

Definition removeElements : M unit :=
  w <- get ;;
  if negb (container (elems (this w))) then ret tt
  else
    modify_this (fun d =>
      with_elems (mkElems (background (elems d)) (container (elems d)) true)
                 d) ;;
    setTimeout (TRemoveElements (oid (this w))).

(** ** Dismissal *)

(** [b.callback && b.callback(arg)]: the callback is the resolver stored by
    [addButton], which is always present. *)
Definition call_callback (i : nat) (b : Button.t) (arg : JSValue) : M unit :=
  log (Called i arg) ;;
  resolve_promise (Button.callback b) arg.

(** [dismiss(result)]; the argument is written [result_] next to the field
    [result].  The fuel bounds the nesting of [dismiss] calls made by
    listeners during an emission.  The method returns [this] (or [undefined]
    from the guard); no caller in the class reads it. *)
Fixpoint dismiss (fuel : nat) (result_ : JSValue) : M unit :=
  match fuel with
  | O => fun _ => OutOfFuel
  | S fuel' =>
      w <- get ;;
      if dismissed (this w) then ret tt
      else
        modify_this (with_dismissed true) ;;
        Queue_remove (oid (this w)) ;;
        modify_this (with_result result_) ;;
        when_ (typeof_undefined result_) (modify_this (with_cancelled true)) ;;
        removeElements ;;
        window_removeEventListener ;;
        w1 <- get ;;
        (if cancelled (this w1)
         then emit (dismiss fuel') "cancelled" (result (this w1))
         else emit (dismiss fuel') "complete" (result (this w1))) ;;
        w2 <- get ;;
        emit (dismiss fuel') "closed" (result (this w2))
  end.

(** [dismissIn(time)]: [setTimeout(this.dismiss.bind(this), time)]. *)
Definition dismissIn (time : JSValue) : M unit :=
  w <- get ;;
  setTimeout (TDismiss (oid (this w)) time).

(** The host firing a timer.  A timer callback is called without arguments,
    so the bound [dismiss] receives [undefined].  The two other timers only
    touch styles and the document tree. *)
Definition fire_timer (fuel : nat) (t : Timer) : M unit :=
  w <- get ;;
  match t with
  | TDismiss dialog _ =>
      if Nat.eqb dialog (oid (this w)) then dismiss fuel VUndefined
      else ret tt
  | TRemoveElements _ | TAnimate _ => ret tt
  end.

(** ** Input events *)

(** The loops of [handleEvent], [for (i = 0; i < this.buttons.length; i++)],
    leave at the first button whose type is the literal; nothing is assigned
    before that, so they search [this.buttons] as it is on entry. *)
Fixpoint find_button (lit : string) (i : nat) (bs : list Button.t)
  : option (nat * Button.t) :=
  match bs with
  | [] => None
  | b :: tl =>
      if loose_eq_literal (Button.type b) lit then Some (i, b)
      else find_button lit (S i) tl
  end.

(** After [dismiss], [this.buttons[i].callback(this.result)] reads the button
    and the result again. *)
Definition callback_with_result (i : nat) : M unit :=
  w <- get ;;
  match nth_error (buttons (this w)) i with
  | Some b => call_callback i b (result (this w))
  | None => throw (TypeError "this.buttons[i] is undefined")
  end.

(** [handleEvent(e)], with [e.keyCode] as the argument. *)
Definition handleEvent (fuel : nat) (keyCode : Z) : M unit :=
  w <- get ;;
  if (keyCode =? 13)%Z then
    match find_button "default" 0 (buttons (this w)) with
    | Some (i, b) =>
        dismiss fuel (Button.value b) ;;
        log PreventDefault ;;
        callback_with_result i
    | None =>
        modify_this (with_cancelled true) ;;
        dismiss fuel VUndefined
    end
  else if (keyCode =? 27)%Z then
    if negb (truthy (cancelable (this w))) then ret tt
    else
      modify_this (with_cancelled true) ;;
      modify_this (with_result VNull) ;;
      match find_button "cancel" 0 (buttons (this w)) with
      | Some (i, b) =>
          dismiss fuel (Button.value b) ;;
          log PreventDefault ;;
          callback_with_result i
      | None =>
          modify_this (with_cancelled true) ;;
          dismiss fuel VUndefined
      end
  else ret tt.

(** The handler [createPopup] attaches to the container (the backdrop). *)
Definition pressContainer (fuel : nat) : M unit :=
  w <- get ;;
  if negb (truthy (cancelable (this w))) then ret tt
  else
    modify_this (with_cancelled true) ;;
    dismiss fuel VUndefined.

(** The handler [createPopup] attaches to the element of button [i]. *)
Definition pressButton (fuel : nat) (i : nat) : M unit :=
  w <- get ;;
  match nth_error (buttons (this w)) i with
  | None => ret tt
  | Some b =>
      call_callback i b (Button.value b) ;;
      when_ (loose_eq_literal (Button.type b) "cancel")
            (modify_this (with_cancelled true)) ;;
      dismiss fuel (Button.value b)
  end.

(** The [keypress] listener of text field [idx]. *)
Definition fieldKeypress (fuel : nat) (idx : nat) (keyCode : Z) : M unit :=
  w <- get ;;
  if negb (keyCode =? 13)%Z then ret tt
  else if Nat.leb (List.length (textFields (this w))) (idx + 1)
       then dismiss fuel (VStr "enter-pressed")
       else ret tt.


(** What can reach a Dialog from outside.  The browser delivers key and
    pointer events only to what [_show] has built and registered. *)
Inductive Trigger : Type :=
| KeyDown (keyCode : Z)
| PressContainer
| PressButton (i : nat)
| FieldKeypress (idx : nat) (keyCode : Z)
| CallDismiss (result_ : JSValue)
| TimerFires (t : Timer).

Definition fire (fuel : nat) (t : Trigger) : M unit :=
  w <- get ;;
  match t with
  | KeyDown k =>
      if mem_nat (oid (this w)) (keydown w) then handleEvent fuel k
      else ret tt
  | PressContainer =>
      if container (elems (this w)) then pressContainer fuel else ret tt
  | PressButton i =>
      if container (elems (this w)) then pressButton fuel i else ret tt
  | FieldKeypress idx k =>
      match nth_error (textFields (this w)) idx with
      | Some f =>
          match TextField.elem f with
          | Some _ => fieldKeypress fuel idx k
          | None => ret tt
          end
      | None => ret tt
      end
  | CallDismiss r => dismiss fuel r
  | TimerFires t => fire_timer fuel t
  end.

(** ** Microtasks *)

Definition try_ {A} (m : M A) : M (JSError + A) :=
  fun w =>
    match m w with
    | Returned a w' => Returned (inr a) w'
    | Thrown e w' => Returned (inl e) w'
    | OutOfFuel => OutOfFuel
    end.

Definition settle (p : nat) (s : PromiseState) : M unit :=
  modify (fun w => with_promises (list_update p s (promises w)) w).

(** The body of a function passed to [then]. *)
Definition call_closure (f : Closure) (payload : JSValue) : M JSValue :=
  match f with
  | PromptThen =>
      w <- get ;;
      if cancelled (this w) then ret VNull else getTextFieldValue 0
  | Identity => ret payload
  end.

(** Modelled from the spec: [queue.js] is not among the sources.  The
    active Dialog is the head of the pending list, and a Dialog that was
    removed before its admission never becomes active: its admission future
    does not resolve. *)
Definition Queue_admits (dialog : nat) (w : World) : bool :=
  match popupQueue w with
  | hd :: _ => Nat.eqb hd dialog
  | [] => false
  end.

(** A microtask.  [JAdmit] is the continuation [show] attached to the
    admission future, [() => { this._show(); this.emit("opened") }]; it runs
    for the Dialog the queue admits. *)
Definition run_job (fuel : nat) (j : Job) : M unit :=
  match j with
  | JReaction f payload target =>
      r <- try_ (call_closure f payload) ;;
      match r with
      | inr v => settle target (Fulfilled v)
      | inl e => settle target (Rejected e)
      end
  | JAdmit dialog =>
      w <- get ;;
      if Nat.eqb dialog (oid (this w)) && Queue_admits dialog w
      then _ <- try_ (_show ;; emit (dismiss fuel) "opened" VUndefined) ;;
           ret tt
      else ret tt
  end.

Fixpoint run_microtasks (fuel : nat) : M unit :=
  match fuel with
  | O => fun _ => OutOfFuel
  | S fuel' =>
      w <- get ;;
      match microtasks w with
      | [] => ret tt
      | j :: tl =>
          modify (with_microtasks tl) ;;
          run_job fuel' j ;;
          run_microtasks fuel'
      end
  end.

(** ** The static convenience constructors *)

Inductive Ret : Type :=
| RPromise (p : nat)
| RDialog (dialog : nat).

(** [icon !== false] *)
Definition not_false (v : JSValue) : bool :=
  match v with VBool false => false | _ => true end.

Section Static.
(** [JSAlert.Icons] comes from [icons.js], which is not among the
    sources; the two icons the constructors name are taken as given. *)
Variable Icons_Information : JSValue.
Variable Icons_Question : JSValue.

(** [typeof window === "undefined"] followed by
    [return Promise.resolve(console.log(prefix + text))]. *)
Definition headless (prefix : string) (text : JSValue) : M Ret :=
  v <- console_log (String.append prefix (to_string text)) ;;
  p <- Promise_resolve v ;;
  ret (RPromise p).

Definition alert (text title icon closeText : JSValue) : M Ret :=
  let closeText := default_arg closeText (VStr "Close") in
  w <- get ;;
  if negb (window w) then headless "Alert: " text
  else
    new_JSAlert text title ;;
    _ <- addButton closeText VNull VUndefined ;;
    when_ (not_false icon) (setIcon (js_or icon Icons_Information)) ;;
    d <- show ;;
    ret (RDialog d).

Definition confirm (text title icon acceptText rejectText : JSValue)
  : M Ret :=
  let acceptText := default_arg acceptText (VStr "OK") in
  let rejectText := default_arg rejectText (VStr "Cancel") in
  w <- get ;;
  if negb (window w) then headless "Alert: " text
  else
    new_JSAlert text title ;;
    _ <- addButton acceptText (VBool true) VUndefined ;;
    _ <- addButton rejectText (VBool false) VUndefined ;;
    when_ (not_false icon) (setIcon (js_or icon Icons_Question)) ;;
    d <- show ;;
    ret (RDialog d).

Definition prompt
  (text defaultText placeholderText title icon acceptText rejectText
     : JSValue) : M Ret :=
  let acceptText := default_arg acceptText (VStr "OK") in
  let rejectText := default_arg rejectText (VStr "Cancel") in
  w <- get ;;
  if negb (window w) then headless "Alert: " text
  else
    new_JSAlert text title ;;
    _ <- addButton acceptText (VBool true) (VStr "default") ;;
    _ <- addButton rejectText (VBool false) (VStr "cancel") ;;
    when_ (not_false icon) (setIcon (js_or icon Icons_Question)) ;;
    addTextField defaultText VNull placeholderText ;;
    _ <- show ;;
    p <- then_ PromptThen ;;
    ret (RPromise p).

Definition loader (text cancelable_ : JSValue) : M Ret :=
  w <- get ;;
  if negb (window w) then headless "Loading: " text
  else
    new_JSAlert text VUndefined ;;
    modify_this (with_cancelable cancelable_) ;;
    d <- show ;;
    ret (RDialog d).
End Static.

(** * What the methods compute, as functions on worlds *)

(** The world a computation leaves, whichever way it ends. *)
Definition exec {A} (m : M A) (w : World) : World :=
  match m w with
  | Returned _ w' => w'
  | Thrown _ w' => w'
  | OutOfFuel => w
  end.

(** ** Emission on a dismissed Dialog

    Once [dismissed] is set, a listener that re-enters [dismiss] returns
    from the guard, so an emission only appends to the trace and settles the
    promises of the [when] listeners. *)

Definition resolve_pure (p : nat) (v : JSValue) (w : World) : World :=
  match nth_error (promises w) p with
  | Some Pending =>
      with_microtasks (microtasks w ++ reaction_jobs p v (reactions w))
        (with_promises (list_update p (Fulfilled v) (promises w)) w)
  | _ => w
  end.

Fixpoint settle_handlers (payload : JSValue) (hs : list Handler) (w : World)
  : World :=
  match hs with
  | [] => w
  | HDismiss _ :: tl => settle_handlers payload tl w
  | HResolve p :: tl => settle_handlers payload tl (resolve_pure p payload w)
  end.

Definition emit_pure (name : string) (payload : JSValue) (w : World)
  : World :=
  settle_handlers payload (handlers_for name (listeners (this w)))
    (with_trace (trace w ++ [Emitted name payload]) w).

(** What an emission leaves alone. *)
Record same_dialog (w w' : World) : Prop := mk_same
  { same_this : this w' = this w;
    same_trace : trace w' = trace w;
    same_window : window w' = window w;
    same_console : console w' = console w;
    same_queue : popupQueue w' = popupQueue w;
    same_keydown : keydown w' = keydown w;
    same_timers : timers w' = timers w }.

(** The world [dismiss] has produced when it reaches
    [window.removeEventListener]: the flag is set, the queue has released the
    Dialog, the result is stored and the elements fade. *)
Definition before_unlisten (r : JSValue) (w : World) : World :=
  exec removeElements
    (exec (when_ (typeof_undefined r) (modify_this (with_cancelled true)))
       (with_this
          (with_result r
             (this (exec (Queue_remove (oid (this w)))
                      (with_this (with_dismissed true (this w)) w))))
          (exec (Queue_remove (oid (this w)))
             (with_this (with_dismissed true (this w)) w)))).

(** The world [dismiss] has produced when it starts to emit. *)
Definition torn_down (r : JSValue) (w : World) : World :=
  with_keydown
    (remove_nat (oid (this (before_unlisten r w)))
       (keydown (before_unlisten r w)))
    (before_unlisten r w).

(** The name of the first emission of a dismissal. *)
Definition outcome_event (c : bool) : string :=
  if c then "cancelled" else "complete".

(** The world a first [dismiss(r)] returns in a browser. *)
Definition dismissed_world (r : JSValue) (w : World) : World :=
  emit_pure "closed" r
    (emit_pure (outcome_event (cancelled (this (torn_down r w)))) r
       (torn_down r w)).

(** How often an event was emitted. *)
Definition emissions (name : string) (tr : list Event) : nat :=
  List.length
    (filter (fun e => match e with
                      | Emitted n _ => n =? name
                      | _ => false
                      end) tr).

(** What the statements of [dismiss] before the emissions change, and what
    they leave alone. *)
Record teardown (r : JSValue) (w w' : World) : Prop := mk_teardown
  { td_dismissed : dismissed (this w') = true;
    td_result : result (this w') = r;
    td_cancelled :
      cancelled (this w') = cancelled (this w) || typeof_undefined r;
    td_oid : oid (this w') = oid (this w);
    td_buttons : buttons (this w') = buttons (this w);
    td_textFields : textFields (this w') = textFields (this w);
    td_listeners : listeners (this w') = listeners (this w);
    td_cancelable : cancelable (this w') = cancelable (this w);
    td_trace : trace w' = trace w;
    td_window : window w' = window w;
    td_console : console w' = console w;
    td_queue : popupQueue w' = remove_nat (oid (this w)) (popupQueue w);
    td_promises : promises w' = promises w;
    td_reactions : reactions w' = reactions w }.

(** What a first [dismiss(r)] in a browser has done when it returns. *)
Record dismissal (r : JSValue) (w w' : World) : Prop := mk_dismissal
  { dm_dismissed : dismissed (this w') = true;
    dm_result : result (this w') = r;
    dm_cancelled :
      cancelled (this w') = cancelled (this w) || typeof_undefined r;
    dm_oid : oid (this w') = oid (this w);
    dm_buttons : buttons (this w') = buttons (this w);
    dm_textFields : textFields (this w') = textFields (this w);
    dm_listeners : listeners (this w') = listeners (this w);
    dm_cancelable : cancelable (this w') = cancelable (this w);
    dm_window : window w' = window w;
    dm_console : console w' = console w;
    dm_queue : popupQueue w' = remove_nat (oid (this w)) (popupQueue w);
    dm_keydown : keydown w' = remove_nat (oid (this w)) (keydown w);
    dm_trace :
      trace w'
      = trace w ++
        [ Emitted (outcome_event (cancelled (this w) || typeof_undefined r)) r;
          Emitted "closed" r ] }.

(** Button [b] sits at index [i] of [bs] and is the first, in insertion
    order, whose type is the literal. *)
Definition first_of_type (lit : string) (bs : list Button.t)
  (i : nat) (b : Button.t) : Prop :=
  nth_error bs i = Some b
  /\ loose_eq_literal (Button.type b) lit = true
  /\ forall j b', j < i -> nth_error bs j = Some b' ->
                  loose_eq_literal (Button.type b') lit = false.

(** No button of [bs] has the literal as its type. *)
Definition none_of_type (lit : string) (bs : list Button.t) : Prop :=
  forall b, In b bs -> loose_eq_literal (Button.type b) lit = false.

(** A call returns a promise that is already fulfilled (with [undefined]),
    having logged one line and nothing more: no Dialog was constructed,
    queued or rendered, no listener, timer or microtask was added and nothing
    was emitted. *)
Definition resolves_without_dialog (line : string) (m : M Ret) (w : World)
  : Prop :=
  exists p w',
    m w = Returned (RPromise p) w'
    /\ nth_error (promises w') p = Some (Fulfilled VUndefined)
    /\ console w' = console w ++ [line]
    /\ popupQueue w' = popupQueue w
    /\ this w' = this w
    /\ next_oid w' = next_oid w
    /\ keydown w' = keydown w
    /\ timers w' = timers w
    /\ microtasks w' = microtasks w
    /\ trace w' = trace w.

(** * Worlds to try the properties on *)

(** A Dialog nobody has configured, as [new JSAlert()] makes it. *)
Definition blank : JSAlert :=
  {| oid := 0;
     elems := mkElems false false false;
     title := VStr "";
     text := VStr "";
     buttons := [];
     textFields := [];
     result := VBool false;
     iconURL := VNull;
     cancelable := VBool true;
     cancelled := false;
     dismissed := false;
     listeners := [] |}.

(** A browser page in which nothing is pending; [q] are the Dialogs already
    waiting in the popup queue. *)
Definition page (q : list nat) : World :=
  {| window := true;
     console := [];
     popupQueue := q;
     keydown := [];
     timers := [];
     promises := [];
     reactions := [];
     microtasks := [];
     next_oid := 1;
     trace := [];
     this := blank |}.

(** The same without a [window] global. *)
Definition node : World :=
  {| window := false;
     console := [];
     popupQueue := [];
     keydown := [];
     timers := [];
     promises := [];
     reactions := [];
     microtasks := [];
     next_oid := 1;
     trace := [];
     this := blank |}.

(** A Dialog constructed where there is no [window] global:
    [new JSAlert("Saved")]. *)
Definition headless_dialog : World :=
  Eval vm_compute in
  exec (new_JSAlert (VStr "Saved") VUndefined) node.

(** C1 as the claim words it, for every Dialog: two calls of [dismiss],
    however each of them ends, emit ["closed"] exactly once. *)
Definition two_dismissals_emit_closed_once
  (fuel : nat) (r r' : JSValue) (w : World) : Prop :=
  emissions "closed"
    (trace (exec (dismiss fuel r') (exec (dismiss fuel r) w)))
  = S (emissions "closed" (trace w)).

(** C2 as the claim words it, for every Dialog not yet dismissed: a first
    [dismiss] without an outcome sets [cancelled] and emits ["cancelled"]
    and then ["closed"]. *)
Definition dismiss_emits_cancelled_then_closed (fuel : nat) (w : World)
  : Prop :=
  dismissed (this w) = false ->
  cancelled (this (exec (dismiss fuel VUndefined) w)) = true
  /\ trace (exec (dismiss fuel VUndefined) w)
     = trace w ++ [Emitted "cancelled" VUndefined;
                   Emitted "closed" VUndefined].

(** C10 as the claim words it, for every Dialog not yet dismissed:
    [dismissIn] and the firing of its timer set [cancelled] and emit
    ["cancelled"] and then ["closed"]. *)
Definition timed_dismissal_cancels (fuel : nat) (time : JSValue) (w : World)
  : Prop :=
  dismissed (this w) = false ->
  let w' := exec (dismissIn time ;;
                  fire_timer fuel (TDismiss (oid (this w)) time)) w in
  cancelled (this w') = true
  /\ trace w' = trace w ++ [Emitted "cancelled" VUndefined;
                            Emitted "closed" VUndefined].

(** A Dialog on a page whose listeners call [dismiss] again: one during
    ["cancelled"], one during ["complete"], two during ["closed"]. *)
Definition reentrant : World :=
  Eval vm_compute in
  exec (new_JSAlert (VStr "Saved") VUndefined ;;
        on "cancelled" (HDismiss (VStr "again")) ;;
        on "complete" (HDismiss VUndefined) ;;
        on "closed" (HDismiss (VNum 1)) ;;
        on "closed" (HDismiss VUndefined))
       (page []).

(** An Active Dialog with a single button, labelled ["OK"], of value
    ["X"]: the first button, hence of type ["default"]. *)
Definition ask : World :=
  Eval vm_compute in
  exec (new_JSAlert (VStr "Proceed?") VUndefined ;;
        _ <- addButton (VStr "OK") (VStr "X") VUndefined ;;
        _ <- show ;;
        run_microtasks 3)
       (page []).

(** An Active Dialog with the buttons
    [[{type: "normal"}, {type: "default", value: "X"}]]. *)
Definition normal_then_default : World :=
  Eval vm_compute in
  exec (new_JSAlert (VStr "Which?") VUndefined ;;
        _ <- addButton (VStr "Later") (VStr "L") (VStr "normal") ;;
        _ <- addButton (VStr "Yes") (VStr "X") (VStr "default") ;;
        _ <- show ;;
        run_microtasks 3)
       (page []).

(** An Active Dialog with the buttons
    [[{type: "normal"}, {type: "default", value: "X"}, {type: "cancel"}]]. *)
Definition choice : World :=
  Eval vm_compute in
  exec (new_JSAlert (VStr "Which?") VUndefined ;;
        _ <- addButton (VStr "Later") (VStr "L") (VStr "normal") ;;
        _ <- addButton (VStr "Yes") (VStr "X") (VStr "default") ;;
        _ <- addButton (VStr "No") (VStr "N") (VStr "cancel") ;;
        _ <- show ;;
        run_microtasks 3)
       (page []).

(** An Active loader: no buttons. *)
Definition busy (cancelable_ : JSValue) : World :=
  Eval vm_compute in
  exec (new_JSAlert (VStr "Loading") VUndefined ;;
        modify_this (with_cancelable cancelable_) ;;
        _ <- show ;;
        run_microtasks 3)
       (page []).



(** The Dialog [alert("Saved")] has built, Active on a fresh page. *)
Definition notice : World :=
  Eval vm_compute in
  exec (_ <- alert (VStr "info.svg") (VStr "Saved") VUndefined VUndefined
              VUndefined ;;
        run_microtasks 3)
       (page []).

(** [notice] after the Escape key. *)
Definition notice_after_escape : World :=
  Eval vm_compute in exec (fire 2 (KeyDown 27)) notice.

(** C9 as the claim words it: whenever a trigger dismisses the Dialog of an
    alert, the Dialog is resolved with the value of its one button. *)
Definition resolves_with_button_value (fuel : nat) (t : Trigger) (w : World)
  : Prop :=
  forall w',
    fire fuel t w = Returned tt w' ->
    dismissed (this w') = true ->
    exists b, buttons (this w') = [b] /\ result (this w') = Button.value b.

(** C4 as the claim words it: on Enter, the callback of the first default
    button is invoked with the value [result] held before [dismiss]. *)
Definition callback_gets_pre_dismiss_result (fuel : nat) (w : World) : Prop :=
  forall i b,
    first_of_type "default" (buttons (this w)) i b ->
    exists w' tr,
      handleEvent fuel 13 w = Returned tt w'
      /\ trace w' = trace w ++ tr
      /\ In (Called i (result (this w))) tr.

(** * What happens to a Dialog over its lifetime *)







(** [addButton(text, value)] for each pair of a list, in order. *)
Fixpoint addButtons (l : list (JSValue * JSValue)) : M unit :=
  match l with
  | [] => ret tt
  | (text_, value_) :: tl =>
      _ <- addButton text_ value_ VUndefined ;;
      addButtons tl
  end.

(** The three constructors that return the Dialog itself, with their
    arguments. *)
Inductive Construction : Type :=
| ByAlert (text_ title_ icon closeText : JSValue)
| ByConfirm (text_ title_ icon acceptText rejectText : JSValue)
| ByLoader (text_ cancelable_ : JSValue).

Definition construct (info question : JSValue) (c : Construction) : M Ret :=
  match c with
  | ByAlert text_ title_ icon closeText =>
      alert info text_ title_ icon closeText
  | ByConfirm text_ title_ icon acceptText rejectText =>
      confirm question text_ title_ icon acceptText rejectText
  | ByLoader text_ cancelable_ => loader text_ cancelable_
  end.

(** A session with a Dialog that is awaited, on a fresh page: the
    constructor call, [then] on the Dialog it returned, the microtasks after
    that (with the admission of the Dialog unless another one is [waiting]
    in front of it), one trigger, and the microtasks after it.  The session
    returns the promise [then] returned. *)
Definition await_session (info question : JSValue) (c : Construction)
  (t : Trigger) (fuel : nat) : M nat :=
  _ <- construct info question c ;;
  p <- then_ Identity ;;
  run_microtasks fuel ;;
  fire fuel t ;;
  run_microtasks fuel ;;
  ret p.

(** What the promise holds once the session is over: nothing while the
    Dialog is open, and the result of the Dialog after it closed. *)
Definition await_outcome (o : Outcome nat) : Prop :=
  match o with
  | Returned p w' =>
      nth_error (promises w') p
      = Some (if dismissed (this w')
              then Fulfilled (result (this w'))
              else Pending)
  | _ => False
  end.

(** * Properties *)

(** ** Monad steps *)

Lemma bind_returned {A B} (m : M A) (k : A -> M B) w a w' :
  m w = Returned a w' -> bind m k w = k a w'.
Proof. intros H. unfold bind. now rewrite H. Qed.

Lemma bind_thrown {A B} (m : M A) (k : A -> M B) w e w' :
  m w = Thrown e w' -> bind m k w = Thrown e w'.
Proof. intros H. unfold bind. now rewrite H. Qed.

Lemma resolve_promise_eq p v w :
  resolve_promise p v w = Returned tt (resolve_pure p v w).
Proof.
  unfold resolve_promise, resolve_pure, bind, get.
  destruct (nth_error (promises w) p) as [[| |]|]; reflexivity.
Qed.

Lemma same_dialog_refl w : same_dialog w w.
Proof. now constructor. Qed.

Lemma same_dialog_trans w1 w2 w3 :
  same_dialog w1 w2 -> same_dialog w2 w3 -> same_dialog w1 w3.
Proof.
  intros [] []. constructor; etransitivity; eassumption.
Qed.

Lemma resolve_pure_same p v w : same_dialog w (resolve_pure p v w).
Proof.
  unfold resolve_pure.
  destruct (nth_error (promises w) p) as [[| |]|];
    constructor; reflexivity.
Qed.

Lemma settle_handlers_same payload hs :
  forall w, same_dialog w (settle_handlers payload hs w).
Proof.
  induction hs as [|[o|p] tl IH]; intros w; simpl.
  - apply same_dialog_refl.
  - apply IH.
  - eapply same_dialog_trans; [apply resolve_pure_same | apply IH].
Qed.

Lemma dismiss_guard fuel r w :
  dismissed (this w) = true -> dismiss (S fuel) r w = Returned tt w.
Proof.
  intros H. simpl. unfold bind, get. now rewrite H.
Qed.

Lemma run_handlers_dismissed fuel payload hs :
  forall w, dismissed (this w) = true ->
    run_handlers (dismiss (S fuel)) payload hs w
    = Returned tt (settle_handlers payload hs w).
Proof.
  induction hs as [|[o|p] tl IH]; intros w Hd.
  - reflexivity.
  - cbn [run_handlers run_handler settle_handlers].
    rewrite (bind_returned _ _ _ _ _ (dismiss_guard fuel o w Hd)).
    now apply IH.
  - cbn [run_handlers run_handler settle_handlers].
    rewrite (bind_returned _ _ _ _ _ (resolve_promise_eq p payload w)).
    apply IH.
    now rewrite (same_this _ _ (resolve_pure_same p payload w)).
Qed.

Lemma emit_dismissed fuel name payload w :
  dismissed (this w) = true ->
  emit (dismiss (S fuel)) name payload w
  = Returned tt (emit_pure name payload w).
Proof.
  intros Hd. unfold emit, emit_pure, log, modify, bind, get.
  now apply run_handlers_dismissed.
Qed.

Lemma emit_pure_this name payload w :
  this (emit_pure name payload w) = this w.
Proof.
  unfold emit_pure.
  now rewrite (same_this _ _ (settle_handlers_same _ _ _)).
Qed.

Lemma emit_pure_trace name payload w :
  trace (emit_pure name payload w) = trace w ++ [Emitted name payload].
Proof.
  unfold emit_pure.
  now rewrite (same_trace _ _ (settle_handlers_same _ _ _)).
Qed.

(** ** The steps of [dismiss] *)

Lemma Queue_remove_total d w :
  Queue_remove d w = Returned tt (exec (Queue_remove d) w).
Proof.
  unfold exec, Queue_remove, bind, get, modify, enqueue, modify, ret.
  destruct (popupQueue w) as [|hd tl]; [reflexivity|].
  destruct (Nat.eqb hd d); [|reflexivity].
  destruct (remove_nat d (hd :: tl)); reflexivity.
Qed.

Lemma removeElements_total w :
  removeElements w = Returned tt (exec removeElements w).
Proof.
  unfold exec, removeElements, bind, get.
  destruct (container (elems (this w))); reflexivity.
Qed.

Lemma when_modify_total b f w :
  when_ b (modify_this f) w = Returned tt (exec (when_ b (modify_this f)) w).
Proof. destruct b; reflexivity. Qed.

Lemma window_removeEventListener_total w :
  window w = true ->
  window_removeEventListener w
  = Returned tt (with_keydown (remove_nat (oid (this w)) (keydown w)) w).
Proof.
  intros H. unfold window_removeEventListener, require_global, bind, get.
  rewrite H. reflexivity.
Qed.

Lemma window_removeEventListener_headless w :
  window w = false ->
  window_removeEventListener w = Thrown (ReferenceError "window") w.
Proof.
  intros H. unfold window_removeEventListener, require_global, bind, get.
  rewrite H. reflexivity.
Qed.

Lemma dismiss_reaches_unlisten fuel r w :
  dismissed (this w) = false ->
  dismiss (S fuel) r w
  = bind window_removeEventListener (fun _ =>
      w1 <- get ;;
      (if cancelled (this w1)
       then emit (dismiss fuel) "cancelled" (result (this w1))
       else emit (dismiss fuel) "complete" (result (this w1))) ;;
      w2 <- get ;;
      emit (dismiss fuel) "closed" (result (this w2)))
    (before_unlisten r w).
Proof.
  intros Hd. cbn [dismiss].
  unfold bind at 1. unfold get at 1. rewrite Hd.
  unfold bind at 1. unfold modify_this at 1, modify at 1.
  rewrite (bind_returned _ _ _ _ _ (Queue_remove_total _ _)).
  unfold bind at 1. unfold modify_this at 1, modify at 1.
  rewrite (bind_returned _ _ _ _ _ (when_modify_total _ _ _)).
  rewrite (bind_returned _ _ _ _ _ (removeElements_total _)).
  reflexivity.
Qed.

Lemma exec_Queue_remove d w :
  exists ms,
    exec (Queue_remove d) w
    = with_microtasks ms
        (with_popupQueue (remove_nat d (popupQueue w)) w).
Proof.
  unfold exec, Queue_remove, bind, get, modify, enqueue, modify, ret.
  destruct (popupQueue w) as [|hd tl]; [now eexists|].
  destruct (Nat.eqb hd d); [|now eexists].
  destruct (remove_nat d (hd :: tl)); now eexists.
Qed.

Lemma exec_removeElements w :
  exists el ts,
    exec removeElements w
    = with_timers ts (with_this (with_elems el (this w)) w).
Proof.
  unfold exec, removeElements, bind, get, modify_this, modify, setTimeout,
    ret.
  destruct (container (elems (this w))); cbn.
  - now do 2 eexists.
  - exists (elems (this w)), (timers w).
    destruct w as [? ? ? ? ? ? ? ? ? ? []]; reflexivity.
Qed.

Lemma exec_when_cancelled b w :
  exec (when_ b (modify_this (with_cancelled true))) w
  = with_this (with_cancelled (cancelled (this w) || b) (this w)) w.
Proof.
  destruct b; cbn.
  - now rewrite orb_true_r.
  - rewrite orb_false_r. destruct w as [? ? ? ? ? ? ? ? ? ? []]; reflexivity.
Qed.

Lemma before_unlisten_teardown r w : teardown r w (before_unlisten r w).
Proof.
  unfold before_unlisten.
  destruct (exec_Queue_remove (oid (this w))
              (with_this (with_dismissed true (this w)) w)) as [ms ->].
  rewrite exec_when_cancelled.
  match goal with
  | |- teardown _ _ (exec removeElements ?x) =>
      destruct (exec_removeElements x) as (el & ts & ->)
  end.
  constructor; reflexivity.
Qed.

Lemma before_unlisten_keydown r w :
  keydown (before_unlisten r w) = keydown w.
Proof.
  unfold before_unlisten.
  destruct (exec_Queue_remove (oid (this w))
              (with_this (with_dismissed true (this w)) w)) as [ms ->].
  rewrite exec_when_cancelled.
  match goal with
  | |- keydown (exec removeElements ?x) = _ =>
      destruct (exec_removeElements x) as (el & ts & ->)
  end.
  reflexivity.
Qed.

Lemma torn_down_teardown r w : teardown r w (torn_down r w).
Proof.
  destruct (before_unlisten_teardown r w). unfold torn_down.
  constructor; assumption.
Qed.

Lemma torn_down_keydown r w :
  keydown (torn_down r w) = remove_nat (oid (this w)) (keydown w).
Proof.
  unfold torn_down. cbn.
  now rewrite (td_oid _ _ _ (before_unlisten_teardown r w)),
    before_unlisten_keydown.
Qed.

(** A first [dismiss] in a browser returns, in the world [dismissed_world]. *)
Lemma dismiss_live fuel r w :
  window w = true ->
  dismissed (this w) = false ->
  dismiss (S (S fuel)) r w = Returned tt (dismissed_world r w).
Proof.
  intros Hw Hd.
  rewrite (dismiss_reaches_unlisten _ _ _ Hd).
  pose proof (before_unlisten_teardown r w) as Hb.
  pose proof (torn_down_teardown r w) as Ht.
  erewrite bind_returned
    by (apply window_removeEventListener_total;
        now rewrite (td_window _ _ _ Hb)).
  fold (torn_down r w).
  unfold bind at 1. unfold get at 1.
  unfold dismissed_world, outcome_event.
  rewrite (td_result _ _ _ Ht).
  assert (He : forall n,
    emit (dismiss (S fuel)) n r (torn_down r w)
    = Returned tt (emit_pure n r (torn_down r w))).
  { intros n. apply emit_dismissed. apply (td_dismissed _ _ _ Ht). }
  assert (Hc : forall n,
    emit (dismiss (S fuel)) "closed"
      (result (this (emit_pure n r (torn_down r w))))
      (emit_pure n r (torn_down r w))
    = Returned tt (emit_pure "closed" r (emit_pure n r (torn_down r w)))).
  { intros n. rewrite emit_pure_this, (td_result _ _ _ Ht).
    apply emit_dismissed.
    rewrite emit_pure_this. apply (td_dismissed _ _ _ Ht). }
  destruct (cancelled (this (torn_down r w)));
    (erewrite bind_returned by apply He);
    unfold bind, get; apply Hc.
Qed.

Lemma emit_pure_same name payload w :
  same_dialog (with_trace (trace w ++ [Emitted name payload]) w)
    (emit_pure name payload w).
Proof. apply settle_handlers_same. Qed.

Lemma dismissed_world_dismissal r w : dismissal r w (dismissed_world r w).
Proof.
  pose proof (torn_down_teardown r w) as Ht.
  pose proof (torn_down_keydown r w) as Hk.
  unfold dismissed_world.
  rewrite (td_cancelled _ _ _ Ht).
  set (n := outcome_event (cancelled (this w) || typeof_undefined r)).
  destruct (emit_pure_same n r (torn_down r w)) as [A1 A2 A3 A4 A5 A6 _].
  destruct (emit_pure_same "closed" r (emit_pure n r (torn_down r w)))
    as [B1 B2 B3 B4 B5 B6 _].
  cbn -[torn_down emit_pure] in A1, A2, A3, A4, A5, A6, B1, B2, B3, B4, B5, B6.
  destruct Ht.
  constructor; rewrite ?B1, ?B2, ?B3, ?B4, ?B5, ?B6,
                       ?A1, ?A2, ?A3, ?A4, ?A5, ?A6; try assumption.
  now rewrite td_trace0, <- app_assoc.
Qed.

(** Without a [window] global a first [dismiss] throws at
    [window.removeEventListener]: the flag is set and nothing was emitted. *)
Lemma dismiss_headless fuel r w :
  window w = false ->
  dismissed (this w) = false ->
  dismiss (S fuel) r w
  = Thrown (ReferenceError "window") (before_unlisten r w).
Proof.
  intros Hw Hd.
  rewrite (dismiss_reaches_unlisten _ _ _ Hd).
  apply bind_thrown, window_removeEventListener_headless.
  now rewrite (td_window _ _ _ (before_unlisten_teardown r w)).
Qed.

(** ** Counting emissions *)

Lemma emissions_app name tr tr' :
  emissions name (tr ++ tr') = emissions name tr + emissions name tr'.
Proof.
  unfold emissions. now rewrite filter_app, length_app.
Qed.

Lemma emissions_outcome c r :
  emissions "closed" [Emitted (outcome_event c) r; Emitted "closed" r] = 1
  /\ emissions "cancelled" [Emitted (outcome_event c) r; Emitted "closed" r]
     = (if c then 1 else 0)
  /\ emissions "complete" [Emitted (outcome_event c) r; Emitted "closed" r]
     = (if c then 0 else 1).
Proof. destruct c; repeat split; reflexivity. Qed.

(** ** Idempotent dismissal *)

(** C1, as the code has it.  [dismiss] is idempotent: on a Dialog whose
    [dismissed] flag is set, [dismiss] returns the world as it is: no field
    changes and nothing is emitted.  In a browser (a [window] global
    exists) a first [dismiss] returns; when it starts to emit, the flag is
    already set and the trace is still the one on entry; a second [dismiss]
    changes nothing, so that the two calls emit ["closed"] exactly once.
    The listeners of the Dialog are arbitrary: they may re-enter [dismiss]
    during each emission. *)
Theorem dismiss_idempotent (fuel : nat) (r r' : JSValue) (w : World) :
  window w = true ->
  dismissed (this w) = false ->
  (forall v, dismissed (this v) = true ->
             dismiss (S fuel) r' v = Returned tt v)
  /\ (exists w0,
        dismissed (this w0) = true /\ trace w0 = trace w
        /\ dismiss (S (S fuel)) r w
           = (w1 <- get ;;
              (if cancelled (this w1)
               then emit (dismiss (S fuel)) "cancelled" (result (this w1))
               else emit (dismiss (S fuel)) "complete" (result (this w1))) ;;
              w2 <- get ;;
              emit (dismiss (S fuel)) "closed" (result (this w2))) w0)
  /\ exists w1,
       dismiss (S (S fuel)) r w = Returned tt w1
       /\ dismissed (this w1) = true
       /\ emissions "closed" (trace w1) = S (emissions "closed" (trace w))
       /\ (dismiss (S (S fuel)) r ;; dismiss (S (S fuel)) r') w
          = Returned tt w1.
Proof.
  intros Hw Hd. split; [|split].
  - intros v Hv. now apply dismiss_guard.
  - exists (torn_down r w).
    pose proof (torn_down_teardown r w) as Ht.
    pose proof (before_unlisten_teardown r w) as Hb.
    split; [apply (td_dismissed _ _ _ Ht)|].
    split; [apply (td_trace _ _ _ Ht)|].
    rewrite (dismiss_reaches_unlisten _ _ _ Hd).
    erewrite bind_returned
      by (apply window_removeEventListener_total;
          now rewrite (td_window _ _ _ Hb)).
    reflexivity.
  - exists (dismissed_world r w).
    pose proof (dismissed_world_dismissal r w) as Hm.
    pose proof (dismiss_live fuel r w Hw Hd) as Hl.
    split; [exact Hl|].
    split; [apply (dm_dismissed _ _ _ Hm)|].
    split.
    + rewrite (dm_trace _ _ _ Hm), emissions_app.
      destruct (emissions_outcome
                  (cancelled (this w) || typeof_undefined r) r) as [-> _].
      lia.
    + rewrite (bind_returned _ _ _ _ _ Hl).
      apply dismiss_guard, (dm_dismissed _ _ _ Hm).
Qed.

Lemma dismiss_idempotent_witness :
  window reentrant = true /\ dismissed (this reentrant) = false
  /\ exists w1,
       (dismiss 2 VUndefined ;; dismiss 2 (VStr "late")) reentrant
       = Returned tt w1
       /\ emissions "closed" (trace w1) = 1.
Proof.
  split; [reflexivity|]. split; [reflexivity|].
  destruct (dismiss_idempotent 0 VUndefined (VStr "late") reentrant
              eq_refl eq_refl) as (_ & _ & w1 & _ & _ & Hc & Hs).
  exists w1. split; [exact Hs | exact Hc].
Defined.

(** C1, counterexample.  Where there is no [window] global the first
    [dismiss] of [new JSAlert("Saved")] throws at
    [window.removeEventListener], after it has set the flag and before it
    emits; the second returns from the guard: the two calls emit ["closed"]
    not once but never. *)
Lemma two_dismissals_without_window_emit_nothing :
  ~ two_dismissals_emit_closed_once 2 VUndefined VUndefined headless_dialog.
Proof.
  unfold two_dismissals_emit_closed_once. vm_compute. discriminate.
Qed.

(** ** Cancel and complete *)

(** C2, as the code has it.  A first [dismiss] of a Dialog in a browser (a
    [window] global exists) stores its argument in
    [result].  Called without an outcome ([undefined]) it sets [cancelled]
    and emits ["cancelled"] and then ["closed"], both with the result.
    Called with an outcome while [cancelled] is unset it leaves the flag
    unset and emits ["complete"] and then ["closed"], both with the result.
    Either way one of ["cancelled"] and ["complete"] is emitted, once. *)
Theorem dismiss_cancelled_or_complete (fuel : nat) (r : JSValue) (w : World) :
  window w = true ->
  dismissed (this w) = false ->
  exists w',
    dismiss (S (S fuel)) r w = Returned tt w'
    /\ result (this w') = r
    /\ (r = VUndefined ->
        cancelled (this w') = true
        /\ trace w'
           = trace w ++ [Emitted "cancelled" (result (this w'));
                         Emitted "closed" (result (this w'))])
    /\ (r <> VUndefined -> cancelled (this w) = false ->
        cancelled (this w') = false
        /\ trace w'
           = trace w ++ [Emitted "complete" (result (this w'));
                         Emitted "closed" (result (this w'))])
    /\ emissions "cancelled" (trace w') + emissions "complete" (trace w')
       = S (emissions "cancelled" (trace w) + emissions "complete" (trace w))
    /\ emissions "closed" (trace w') = S (emissions "closed" (trace w)).
Proof.
  intros Hw Hd. exists (dismissed_world r w).
  destruct (dismissed_world_dismissal r w).
  split; [now apply dismiss_live|].
  split; [assumption|].
  rewrite dm_trace0, dm_cancelled0, dm_result0, !emissions_app.
  destruct (emissions_outcome (cancelled (this w) || typeof_undefined r) r)
    as (-> & -> & ->).
  split; [intros ->; rewrite orb_true_r; split; reflexivity|].
  split.
  - intros Hr Hc. rewrite Hc.
    destruct r; try contradiction; split; reflexivity.
  - split; [destruct (cancelled (this w) || typeof_undefined r)|]; lia.
Qed.

Lemma dismiss_cancelled_or_complete_witness :
  window reentrant = true /\ dismissed (this reentrant) = false
  /\ exists w',
       dismiss 2 (VStr "yes") reentrant = Returned tt w'
       /\ cancelled (this w') = false
       /\ trace w' = [Emitted "complete" (VStr "yes");
                      Emitted "closed" (VStr "yes")].
Proof.
  split; [reflexivity|]. split; [reflexivity|].
  destruct (dismiss_cancelled_or_complete 0 (VStr "yes") reentrant
              eq_refl eq_refl) as (w' & Hr & Hres & _ & Hc & _).
  exists w'. split; [exact Hr|].
  destruct (Hc ltac:(discriminate) eq_refl) as [Hf Ht].
  split; [exact Hf|].
  rewrite Ht, Hres. reflexivity.
Defined.

(** C2, counterexample.  Where there is no [window] global the first
    [dismiss()] of [new JSAlert("Saved")] sets [cancelled] and throws before
    it emits: neither ["cancelled"] nor ["closed"] is emitted. *)
Lemma dismiss_without_window_emits_nothing :
  ~ dismiss_emits_cancelled_then_closed 2 headless_dialog.
Proof.
  intros H. destruct (H eq_refl) as [_ Ht].
  vm_compute in Ht. discriminate Ht.
Qed.

(** ** Timed dismissal *)

(** C10, as the code has it.  [dismissIn] records one timer for the Dialog
    and changes nothing else.  When that timer fires on the Dialog, not yet
    dismissed, in a browser (a [window] global exists), [dismiss] runs
    without an outcome: the result is [undefined],
    [cancelled] is set, ["cancelled"] and then ["closed"] are emitted, and
    ["complete"] is not. *)
Theorem dismissIn_cancels (time : JSValue) (w0 : World) :
  dismissIn time w0
  = Returned tt (with_timers (timers w0 ++ [TDismiss (oid (this w0)) time]) w0)
  /\ forall fuel w,
       oid (this w) = oid (this w0) ->
       window w = true ->
       dismissed (this w) = false ->
       exists w',
         fire_timer (S (S fuel)) (TDismiss (oid (this w0)) time) w
         = Returned tt w'
         /\ result (this w') = VUndefined
         /\ cancelled (this w') = true
         /\ dismissed (this w') = true
         /\ trace w' = trace w ++ [Emitted "cancelled" VUndefined;
                                   Emitted "closed" VUndefined]
         /\ emissions "complete" (trace w') = emissions "complete" (trace w).
Proof.
  split; [reflexivity|].
  intros fuel w Ho Hw Hd. exists (dismissed_world VUndefined w).
  destruct (dismissed_world_dismissal VUndefined w).
  split.
  - unfold fire_timer, bind, get. rewrite <- Ho, Nat.eqb_refl.
    now apply dismiss_live.
  - rewrite dm_trace0, dm_cancelled0, emissions_app, orb_true_r.
    repeat split; try assumption. cbn. lia.
Qed.

Lemma dismissIn_cancels_witness :
  exists w1 w',
    dismissIn (VNum 3000) reentrant = Returned tt w1
    /\ timers w1 = [TDismiss 1 (VNum 3000)]
    /\ fire_timer 2 (TDismiss 1 (VNum 3000)) w1 = Returned tt w'
    /\ cancelled (this w') = true
    /\ trace w' = [Emitted "cancelled" VUndefined;
                   Emitted "closed" VUndefined].
Proof.
  destruct (dismissIn_cancels (VNum 3000) reentrant) as [H1 H2].
  destruct (H2 0 (with_timers [TDismiss 1 (VNum 3000)] reentrant)
              eq_refl eq_refl eq_refl) as (w' & Hf & _ & Hc & _ & Ht & _).
  exists (with_timers [TDismiss 1 (VNum 3000)] reentrant), w'.
  split; [exact H1|]. split; [reflexivity|].
  split; [exact Hf|]. split; [exact Hc | exact Ht].
Defined.

(** C10, counterexample.  Where there is no [window] global the timer of
    [new JSAlert("Saved").dismissIn(3000)] fires a [dismiss] that throws
    before it emits: neither ["cancelled"] nor ["closed"] is emitted. *)
Lemma timed_dismissal_without_window_emits_nothing :
  ~ timed_dismissal_cancels 2 (VNum 3000) headless_dialog.
Proof.
  intros H. destruct (H eq_refl) as [_ Ht].
  vm_compute in Ht. discriminate Ht.
Qed.

(** ** The scan of the buttons *)

Lemma find_button_first lit bs :
  forall k i b,
    first_of_type lit bs i b -> find_button lit k bs = Some (k + i, b).
Proof.
  induction bs as [|x tl IH]; intros k i b (Hn & Ht & Hlt).
  - destruct i; discriminate.
  - destruct i as [|i]; cbn in *.
    + injection Hn as ->. now rewrite Ht, Nat.add_0_r.
    + rewrite (Hlt 0 x (Nat.lt_0_succ i) eq_refl).
      rewrite (IH (S k) i b), Nat.add_succ_r; [reflexivity|].
      repeat split; try assumption.
      intros j b' Hj Hb'. apply (Hlt (S j) b'); [lia | exact Hb'].
Qed.

Lemma find_button_none lit bs :
  forall k, none_of_type lit bs -> find_button lit k bs = None.
Proof.
  induction bs as [|x tl IH]; intros k Hn; [reflexivity|].
  cbn. rewrite (Hn x (or_introl eq_refl)).
  apply IH. intros b Hb. apply Hn. now right.
Qed.

Lemma find_button_found lit bs :
  forall k i b,
    find_button lit k bs = Some (i, b) ->
    k <= i /\ first_of_type lit bs (i - k) b.
Proof.
  induction bs as [|x tl IH]; intros k i b H; [discriminate|].
  cbn in H. destruct (loose_eq_literal (Button.type x) lit) eqn:Hx.
  - injection H as <- <-. rewrite Nat.sub_diag.
    repeat split; [lia | assumption | intros j b' Hj; lia].
  - destruct (IH _ _ _ H) as (Hle & Hn & Ht & Hlt).
    replace (i - k) with (S (i - S k)) by lia.
    repeat split; [lia | exact Hn | exact Ht |].
    intros [|j] b' Hj Hb'; cbn in Hb'.
    + now injection Hb' as <-.
    + apply (Hlt j b'); [lia | exact Hb'].
Qed.

(** ** Dismissal by a button found with the keyboard *)

(** [dismiss] with the value of button [i], [e.preventDefault()], then the
    callback of the button: the callback receives the result that [dismiss]
    has just stored, which is the value of the button. *)
Lemma dismiss_then_callback fuel i b w :
  window w = true ->
  dismissed (this w) = false ->
  nth_error (buttons (this w)) i = Some b ->
  exists w',
    (dismiss (S (S fuel)) (Button.value b) ;;
     log PreventDefault ;;
     callback_with_result i) w = Returned tt w'
    /\ dismissed (this w') = true
    /\ result (this w') = Button.value b
    /\ cancelled (this w')
       = cancelled (this w) || typeof_undefined (Button.value b)
    /\ trace w'
       = trace w ++
         [ Emitted (outcome_event (cancelled (this w')) ) (Button.value b);
           Emitted "closed" (Button.value b);
           PreventDefault;
           Called i (Button.value b) ].
Proof.
  intros Hw Hd Hn.
  pose proof (dismissed_world_dismissal (Button.value b) w) as Hm.
  set (w1 := dismissed_world (Button.value b) w) in *.
  set (w2 := with_trace (trace w1 ++ [PreventDefault]) w1).
  set (w3 := with_trace (trace w2 ++ [Called i (Button.value b)]) w2).
  exists (resolve_pure (Button.callback b) (Button.value b) w3).
  destruct (resolve_pure_same (Button.callback b) (Button.value b) w3)
    as [S1 S2 _ _ _ _ _].
  destruct Hm. rewrite S1, S2. cbn -[dismissed_world dismiss].
  repeat split; try assumption.
  - rewrite (bind_returned _ _ _ _ _ (dismiss_live fuel _ w Hw Hd)).
    fold w1. unfold bind at 1. unfold log at 1, modify at 1. fold w2.
    unfold callback_with_result, bind at 1. unfold get at 1.
    replace (buttons (this w2)) with (buttons (this w)) by (symmetry; assumption).
    rewrite Hn.
    replace (result (this w2)) with (Button.value b) by (symmetry; assumption).
    unfold call_callback, bind at 1. unfold log at 1, modify at 1. fold w3.
    apply resolve_promise_eq.
  - rewrite dm_trace0, dm_cancelled0, <- !app_assoc. reflexivity.
Qed.

(** ** The Enter key *)

Lemma handleEvent_enter_found fuel w i b :
  find_button "default" 0 (buttons (this w)) = Some (i, b) ->
  handleEvent fuel 13 w
  = (dismiss fuel (Button.value b) ;;
     log PreventDefault ;;
     callback_with_result i) w.
Proof.
  intros H. unfold handleEvent. unfold bind at 1. unfold get at 1.
  change (13 =? 13)%Z with true. cbv iota. now rewrite H.
Qed.

Lemma handleEvent_enter_none fuel w :
  find_button "default" 0 (buttons (this w)) = None ->
  handleEvent fuel 13 w
  = dismiss fuel VUndefined (with_this (with_cancelled true (this w)) w).
Proof.
  intros H. unfold handleEvent. unfold bind at 1. unfold get at 1.
  change (13 =? 13)%Z with true. cbv iota. now rewrite H.
Qed.

(** C3. On Enter, for an Active Dialog, the Dialog is dismissed with the
    value of the first button, in insertion order, whose type is
    ["default"]: the result is that value and the emissions carry it.  When
    no button has type ["default"], the Dialog is dismissed without a value:
    the result is [undefined], [cancelled] is set and ["cancelled"] is
    emitted before ["closed"]. *)
Theorem enter_dismisses_with_default_button (fuel : nat) (w : World) :
  window w = true ->
  dismissed (this w) = false ->
  (forall i b,
     first_of_type "default" (buttons (this w)) i b ->
     exists w',
       handleEvent (S (S fuel)) 13 w = Returned tt w'
       /\ dismissed (this w') = true
       /\ result (this w') = Button.value b
       /\ cancelled (this w')
          = cancelled (this w) || typeof_undefined (Button.value b)
       /\ exists tail,
            trace w'
            = trace w ++
              Emitted (outcome_event (cancelled (this w'))) (Button.value b)
              :: Emitted "closed" (Button.value b) :: tail)
  /\ (none_of_type "default" (buttons (this w)) ->
      exists w',
        handleEvent (S (S fuel)) 13 w = Returned tt w'
        /\ dismissed (this w') = true
        /\ result (this w') = VUndefined
        /\ cancelled (this w') = true
        /\ trace w' = trace w ++ [Emitted "cancelled" VUndefined;
                                  Emitted "closed" VUndefined]).
Proof.
  intros Hw Hd. split.
  - intros i b Hf.
    rewrite (handleEvent_enter_found _ _ i b)
      by apply (find_button_first _ _ 0 i b Hf).
    destruct Hf as (Hn & _).
    destruct (dismiss_then_callback fuel i b w Hw Hd Hn)
      as (w' & Hr & H1 & H2 & H3 & H4).
    exists w'. repeat split; try assumption.
    eexists. exact H4.
  - intros Hn.
    rewrite handleEvent_enter_none by now apply find_button_none.
    set (w0 := with_this (with_cancelled true (this w)) w).
    exists (dismissed_world VUndefined w0).
    destruct (dismissed_world_dismissal VUndefined w0).
    split; [now apply dismiss_live|].
    repeat split; try assumption.
Qed.

Lemma enter_dismisses_with_default_button_witness :
  window normal_then_default = true
  /\ dismissed (this normal_then_default) = false
  /\ exists w',
       handleEvent 2 13 normal_then_default = Returned tt w'
       /\ result (this w') = VStr "X".
Proof.
  split; [reflexivity|]. split; [reflexivity|].
  destruct (enter_dismisses_with_default_button 0 normal_then_default
              eq_refl eq_refl) as [Hf _].
  destruct (Hf 1 (Button.mk (VStr "Yes") (VStr "X") (VStr "default") 1))
    as (w' & Hr & _ & Hres & _).
  - split; [reflexivity|]. split; [reflexivity|].
    intros [|j] b' Hj Hb'; [|lia].
    injection Hb' as <-. reflexivity.
  - exists w'. split; [exact Hr | exact Hres].
Defined.

(** C4, as the code has it.  On Enter, for an Active Dialog with a first
    default button, the callback of that button is invoked once, after
    [dismiss] and [preventDefault], with the result [dismiss] has stored,
    which is the value of the button. *)
Theorem enter_callback_gets_stored_result
  (fuel : nat) (w : World) (i : nat) (b : Button.t) :
  window w = true ->
  dismissed (this w) = false ->
  first_of_type "default" (buttons (this w)) i b ->
  exists w',
    handleEvent (S (S fuel)) 13 w = Returned tt w'
    /\ result (this w') = Button.value b
    /\ trace w'
       = trace w ++
         [ Emitted (outcome_event (cancelled (this w'))) (Button.value b);
           Emitted "closed" (Button.value b);
           PreventDefault;
           Called i (result (this w')) ].
Proof.
  intros Hw Hd Hf.
  rewrite (handleEvent_enter_found _ _ i b)
    by apply (find_button_first _ _ 0 i b Hf).
  destruct Hf as (Hn & _).
  destruct (dismiss_then_callback fuel i b w Hw Hd Hn)
    as (w' & Hr & H1 & H2 & H3 & H4).
  exists w'. rewrite H2. repeat split; assumption.
Qed.

Lemma ask_first_default :
  first_of_type "default" (buttons (this ask)) 0
    (Button.mk (VStr "OK") (VStr "X") (VStr "default") 0).
Proof.
  split; [reflexivity|]. split; [reflexivity|]. intros j b' Hj. lia.
Qed.

Lemma enter_callback_gets_stored_result_witness :
  window ask = true /\ dismissed (this ask) = false
  /\ exists w',
       handleEvent 2 13 ask = Returned tt w'
       /\ trace w' = [ Emitted "opened" VUndefined;
                       Emitted "complete" (VStr "X");
                       Emitted "closed" (VStr "X");
                       PreventDefault;
                       Called 0 (VStr "X") ].
Proof.
  split; [reflexivity|]. split; [reflexivity|].
  destruct (enter_callback_gets_stored_result 0 ask 0 _
              eq_refl eq_refl ask_first_default) as (w' & Hr & Hres & Ht).
  exists w'. split; [exact Hr|].
  rewrite Ht, Hres.
  assert (Hc : cancelled (this w') = false).
  { vm_compute in Hr. now injection Hr as <-. }
  rewrite Hc. reflexivity.
Defined.

(** C4, counterexample.  The Dialog [ask] holds [false] in [result] when
    Enter is pressed; the callback of its button is invoked with ["X"], the
    value [dismiss] has stored, and never with [false]. *)
Lemma enter_callback_not_pre_dismiss_result :
  ~ callback_gets_pre_dismiss_result 2 ask.
Proof.
  intros H.
  destruct (H 0 _ ask_first_default) as (w' & tr & Hr & Ht & Hin).
  vm_compute in Hr. injection Hr as <-.
  cbn in Ht. injection Ht as <-.
  cbn in Hin.
  repeat (destruct Hin as [Hin|Hin]; [discriminate Hin|]).
  exact Hin.
Qed.

(** ** The Escape key *)

(** The Dialog as the Escape branch leaves it before it looks for a cancel
    button: [this.cancelled = true; this.result = null]. *)
Lemma handleEvent_escape fuel w :
  truthy (cancelable (this w)) = true ->
  handleEvent fuel 27 w
  = match find_button "cancel" 0 (buttons (this w)) with
    | Some (i, b) =>
        dismiss fuel (Button.value b) ;;
        log PreventDefault ;;
        callback_with_result i
    | None =>
        modify_this (with_cancelled true) ;;
        dismiss fuel VUndefined
    end (with_this (with_result VNull (with_cancelled true (this w))) w).
Proof.
  intros H. unfold handleEvent. unfold bind at 1. unfold get at 1.
  change (27 =? 13)%Z with false. change (27 =? 27)%Z with true. cbv iota.
  rewrite H. reflexivity.
Qed.

(** C5. On Escape: a Dialog whose [cancelable] is false (falsy) is left as it
    is and nothing is emitted.  Otherwise, for an Active Dialog, [cancelled]
    is set and [result] becomes [null]; from that state the Dialog is
    dismissed with the value of the first button, in insertion order, whose
    type is ["cancel"], and that button's callback is invoked; without such
    a button it is dismissed without a value. *)
Theorem escape_dismisses_with_cancel_button (fuel : nat) (w : World) :
  (truthy (cancelable (this w)) = false ->
   handleEvent fuel 27 w = Returned tt w)
  /\ (window w = true ->
      dismissed (this w) = false ->
      truthy (cancelable (this w)) = true ->
      exists w0,
        cancelled (this w0) = true /\ result (this w0) = VNull
        /\ trace w0 = trace w /\ buttons (this w0) = buttons (this w)
        /\ (forall i b,
              first_of_type "cancel" (buttons (this w)) i b ->
              handleEvent (S (S fuel)) 27 w
              = (dismiss (S (S fuel)) (Button.value b) ;;
                 log PreventDefault ;;
                 callback_with_result i) w0
              /\ exists w',
                   handleEvent (S (S fuel)) 27 w = Returned tt w'
                   /\ dismissed (this w') = true
                   /\ cancelled (this w') = true
                   /\ result (this w') = Button.value b
                   /\ trace w'
                      = trace w ++
                        [ Emitted "cancelled" (Button.value b);
                          Emitted "closed" (Button.value b);
                          PreventDefault;
                          Called i (Button.value b) ])
        /\ (none_of_type "cancel" (buttons (this w)) ->
            handleEvent (S (S fuel)) 27 w
            = dismiss (S (S fuel)) VUndefined w0
            /\ exists w',
                 handleEvent (S (S fuel)) 27 w = Returned tt w'
                 /\ dismissed (this w') = true
                 /\ cancelled (this w') = true
                 /\ result (this w') = VUndefined
                 /\ trace w'
                    = trace w ++ [ Emitted "cancelled" VUndefined;
                                   Emitted "closed" VUndefined ])).
Proof.
  split.
  - intros H. unfold handleEvent, bind, get.
    change (27 =? 13)%Z with false. change (27 =? 27)%Z with true. cbv iota.
    now rewrite H.
  - intros Hw Hd Hc.
    set (w0 := with_this (with_result VNull (with_cancelled true (this w))) w).
    exists w0. do 4 (split; [reflexivity|]).
    rewrite (handleEvent_escape _ _ Hc). fold w0.
    split.
    + intros i b Hf.
      rewrite (find_button_first _ _ 0 i b Hf). cbn [Nat.add].
      split; [reflexivity|].
      destruct Hf as (Hn & _).
      destruct (dismiss_then_callback fuel i b w0 Hw Hd Hn)
        as (w' & Hr & H1 & H2 & H3 & H4).
      exists w'. cbn in H3. rewrite H3 in H4.
      repeat split; assumption.
    + intros Hn. rewrite (find_button_none _ _ 0 Hn).
      split; [reflexivity|].
      exists (dismissed_world VUndefined w0).
      destruct (dismissed_world_dismissal VUndefined w0).
      split.
      * unfold bind, modify_this, modify. now apply dismiss_live.
      * repeat split; assumption.
Qed.

Lemma escape_dismisses_with_cancel_button_witness :
  (exists w',
     handleEvent 2 27 choice = Returned tt w'
     /\ result (this w') = VStr "N"
     /\ cancelled (this w') = true)
  /\ handleEvent 2 27 (busy (VBool false)) = Returned tt (busy (VBool false)).
Proof.
  split.
  - destruct (escape_dismisses_with_cancel_button 0 choice) as [_ H].
    destruct (H eq_refl eq_refl eq_refl) as (w0 & _ & _ & _ & _ & Hf & _).
    destruct (Hf 2 (Button.mk (VStr "No") (VStr "N") (VStr "cancel") 2))
      as (_ & w' & Hr & _ & Hc & Hres & _).
    + split; [reflexivity|]. split; [reflexivity|].
      intros [|[|j]] b' Hj Hb'; [| |lia]; injection Hb' as <-; reflexivity.
    + exists w'. repeat split; assumption.
  - destruct (escape_dismisses_with_cancel_button 2 (busy (VBool false)))
      as [H _].
    apply H. reflexivity.
Defined.

(** ** Adding buttons *)

Lemma nth_error_snoc {A} (l : list A) (x : A) :
  nth_error (l ++ [x]) (List.length l) = Some x.
Proof.
  induction l as [|y tl IH]; [reflexivity | exact IH].
Qed.

(** C6. [addButton] without a role returns, and appends one button at the
    end of the list: its type is ["default"] when the list was empty at the
    call and ["normal"] otherwise, its text is the label, and its value is
    the value passed or, when none was passed ([undefined]), the label. *)
Theorem addButton_defaults (text_ value_ : JSValue) (w : World) :
  exists p w' b,
    addButton text_ value_ VUndefined w = Returned p w'
    /\ buttons (this w') = buttons (this w) ++ [b]
    /\ nth_error (buttons (this w')) (List.length (buttons (this w)))
       = Some b
    /\ Button.text b = text_
    /\ Button.type b
       = match buttons (this w) with
         | [] => VStr "default"
         | _ :: _ => VStr "normal"
         end
    /\ Button.value b
       = match value_ with VUndefined => text_ | _ => value_ end.
Proof.
  do 3 eexists. split; [reflexivity|]. cbn.
  split; [reflexivity|].
  split; [apply nth_error_snoc|].
  split; [reflexivity|].
  split.
  - destruct (buttons (this w)); reflexivity.
  - destruct value_; reflexivity.
Qed.

(** ** The constructors without a window *)

Lemma headless_resolves prefix text_ w :
  resolves_without_dialog (String.append prefix (to_string text_))
    (headless prefix text_) w.
Proof.
  do 2 eexists. split; [reflexivity|]. cbn.
  split; [apply nth_error_snoc|].
  repeat split.
Qed.

(** C7. Where there is no [window] global, [alert], [confirm], [prompt] and
    [loader] each return, without throwing, a promise that is already
    fulfilled; they construct, queue and show no Dialog.  This holds for all
    arguments. *)
Theorem constructors_resolve_without_window
  (info question : JSValue) (w : World)
  (text_ title_ icon closeText acceptText rejectText defaultText
     placeholderText cancelable_ : JSValue) :
  window w = false ->
  resolves_without_dialog (String.append "Alert: " (to_string text_))
    (alert info text_ title_ icon closeText) w
  /\ resolves_without_dialog (String.append "Alert: " (to_string text_))
       (confirm question text_ title_ icon acceptText rejectText) w
  /\ resolves_without_dialog (String.append "Alert: " (to_string text_))
       (prompt question text_ defaultText placeholderText title_ icon
          acceptText rejectText) w
  /\ resolves_without_dialog (String.append "Loading: " (to_string text_))
       (loader text_ cancelable_) w.
Proof.
  intros Hw.
  pose proof (headless_resolves "Alert: " text_ w) as Ha.
  pose proof (headless_resolves "Loading: " text_ w) as Hl.
  unfold resolves_without_dialog, alert, confirm, prompt, loader, bind, get
    in *.
  rewrite Hw. cbn [negb].
  repeat split; assumption.
Qed.

Lemma constructors_resolve_without_window_witness :
  window node = false
  /\ exists w',
       alert (VStr "info.svg") (VStr "Saved") VUndefined VUndefined
         VUndefined node
       = Returned (RPromise 0) w'
       /\ promises w' = [Fulfilled VUndefined]
       /\ console w' = ["Alert: Saved"]
       /\ popupQueue w' = [].
Proof.
  split; [reflexivity|].
  destruct (constructors_resolve_without_window (VStr "info.svg") VNull node
              (VStr "Saved") VUndefined VUndefined VUndefined VUndefined
              VUndefined VUndefined VUndefined VUndefined eq_refl)
    as ((p & w' & Hr & _) & _).
  vm_compute in Hr. injection Hr as <- <-.
  eexists. repeat split.
Defined.

(** ** The future of a prompt *)

Lemma bind_ext {A B} (m : M A) (k k' : A -> M B) w :
  (forall a v, k a v = k' a v) -> bind m k w = bind m k' w.
Proof.
  intros H. unfold bind. destruct (m w); [apply H | reflexivity..].
Qed.


(** Keys other than Enter and Escape do nothing. *)
Lemma fire_other_key fuel k w :
  k <> 13%Z -> k <> 27%Z ->
  fire fuel (KeyDown k) w = fire fuel (KeyDown 0) w.
Proof.
  intros H13 H27. unfold fire, handleEvent, bind, get.
  apply Z.eqb_neq in H13, H27. rewrite H13, H27. reflexivity.
Qed.






(** ** Pointer events *)

Lemma pressButton_live fuel i b w :
  window w = true ->
  dismissed (this w) = false ->
  nth_error (buttons (this w)) i = Some b ->
  exists w',
    pressButton (S (S fuel)) i w = Returned tt w'
    /\ dismissed (this w') = true
    /\ result (this w') = Button.value b
    /\ cancelled (this w')
       = cancelled (this w) || loose_eq_literal (Button.type b) "cancel"
         || typeof_undefined (Button.value b)
    /\ trace w'
       = trace w ++
         [ Called i (Button.value b);
           Emitted (outcome_event (cancelled (this w'))) (Button.value b);
           Emitted "closed" (Button.value b) ].
Proof.
  intros Hw Hd Hn.
  set (v := Button.value b).
  set (w1 := resolve_pure (Button.callback b) v
               (with_trace (trace w ++ [Called i v]) w)).
  set (w2 := exec (when_ (loose_eq_literal (Button.type b) "cancel")
                     (modify_this (with_cancelled true))) w1).
  assert (H1 : same_dialog (with_trace (trace w ++ [Called i v]) w) w1)
    by apply resolve_pure_same.
  destruct H1 as [T1 T2 T3 _ _ _ _]. cbn in T1, T2, T3.
  assert (E2 : w2 = with_this
                 (with_cancelled
                    (cancelled (this w)
                     || loose_eq_literal (Button.type b) "cancel") (this w))
                 w1).
  { unfold w2. now rewrite exec_when_cancelled, T1. }
  pose proof (dismissed_world_dismissal v w2) as Hm.
  exists (dismissed_world v w2). split.
  - unfold pressButton. unfold bind at 1. unfold get at 1. rewrite Hn.
    unfold call_callback. unfold bind at 1. unfold bind at 1.
    unfold log at 1, modify at 1.
    rewrite resolve_promise_eq. fold v. fold w1.
    rewrite (bind_returned _ _ _ _ _ (when_modify_total _ _ _)). fold w2.
    apply dismiss_live; rewrite E2; cbn; congruence.
  - assert (C2 : cancelled (this w2)
                 = cancelled (this w)
                   || loose_eq_literal (Button.type b) "cancel")
      by now rewrite E2.
    assert (R2 : trace w2 = trace w ++ [Called i v])
      by now rewrite E2.
    destruct Hm. rewrite dm_trace0, dm_cancelled0, C2, R2, <- app_assoc.
    repeat split; assumption.
Qed.

Lemma pressContainer_live fuel w :
  window w = true ->
  dismissed (this w) = false ->
  truthy (cancelable (this w)) = true ->
  exists w',
    pressContainer (S (S fuel)) w = Returned tt w'
    /\ dismissed (this w') = true
    /\ result (this w') = VUndefined
    /\ cancelled (this w') = true
    /\ trace w' = trace w ++ [ Emitted "cancelled" VUndefined;
                               Emitted "closed" VUndefined ].
Proof.
  intros Hw Hd Hc.
  set (w0 := with_this (with_cancelled true (this w)) w).
  exists (dismissed_world VUndefined w0).
  destruct (dismissed_world_dismissal VUndefined w0).
  split.
  - unfold pressContainer, bind, get, modify_this, modify. rewrite Hc.
    now apply dismiss_live.
  - repeat split; assumption.
Qed.

(** ** The Dialog of an alert *)

Lemma alert_in_browser info text_ title_ icon closeText w0 :
  window w0 = true ->
  exists w1,
    alert info text_ title_ icon closeText w0
    = Returned (RDialog (next_oid w0)) w1
    /\ buttons (this w1)
       = [ Button.mk (default_arg closeText (VStr "Close")) VNull
             (VStr "default") (List.length (promises w0)) ]
    /\ dismissed (this w1) = false
    /\ cancelled (this w1) = false
    /\ cancelable (this w1) = VBool true
    /\ oid (this w1) = next_oid w0
    /\ popupQueue w1 = popupQueue w0 ++ [next_oid w0].
Proof.
  intros Hw. unfold alert, bind at 1. unfold get at 1. rewrite Hw.
  cbn [negb].
  destruct (not_false icon); destruct (popupQueue w0) eqn:Hq;
    cbv [bind new_JSAlert addButton new_promise show Queue_add get modify
         modify_this setIcon enqueue ret when_];
    cbn; rewrite ?Hq; cbn; eexists; repeat split.
Qed.

(** C9, as the code has it.  In a browser [alert] returns the Dialog it has
    queued; the Dialog has exactly one button, labelled with the close text,
    of type ["default"] and of value [null].  While the Dialog is Active,
    Enter and a press on the button resolve it with the value of that
    button; Escape and a press on the backdrop resolve it with no value
    ([undefined]) and set [cancelled]. *)
Theorem alert_button_and_dismissals
  (info text_ title_ icon closeText : JSValue) (w0 : World) :
  window w0 = true ->
  exists w1 b,
    alert info text_ title_ icon closeText w0
    = Returned (RDialog (next_oid w0)) w1
    /\ buttons (this w1) = [b]
    /\ Button.text b = default_arg closeText (VStr "Close")
    /\ Button.type b = VStr "default"
    /\ Button.value b = VNull
    /\ In (oid (this w1)) (popupQueue w1)
    /\ forall fuel w,
         buttons (this w) = buttons (this w1) ->
         cancelable (this w) = cancelable (this w1) ->
         window w = true ->
         dismissed (this w) = false ->
         (exists w',
            handleEvent (S (S fuel)) 13 w = Returned tt w'
            /\ dismissed (this w') = true
            /\ result (this w') = Button.value b)
         /\ (exists w',
               pressButton (S (S fuel)) 0 w = Returned tt w'
               /\ dismissed (this w') = true
               /\ result (this w') = Button.value b)
         /\ (exists w',
               handleEvent (S (S fuel)) 27 w = Returned tt w'
               /\ dismissed (this w') = true
               /\ result (this w') = VUndefined
               /\ cancelled (this w') = true)
         /\ (exists w',
               pressContainer (S (S fuel)) w = Returned tt w'
               /\ dismissed (this w') = true
               /\ result (this w') = VUndefined
               /\ cancelled (this w') = true).
Proof.
  intros Hw0.
  destruct (alert_in_browser info text_ title_ icon closeText w0 Hw0)
    as (w1 & Hr & Hb & Hd1 & _ & Hc1 & Ho & Hq).
  exists w1. eexists. split; [exact Hr|]. split; [exact Hb|].
  do 3 (split; [reflexivity|]).
  split; [rewrite Hq, Ho; apply in_or_app; right; now left|].
  intros fuel w Hbs Hcs Hw Hd. rewrite Hb in Hbs. rewrite Hc1 in Hcs.
  assert (Hn : nth_error (buttons (this w)) 0
               = Some (Button.mk (default_arg closeText (VStr "Close")) VNull
                         (VStr "default") (List.length (promises w0))))
    by now rewrite Hbs.
  repeat apply conj.
  - rewrite (handleEvent_enter_found _ _ 0 _) by (rewrite Hbs; reflexivity).
    destruct (dismiss_then_callback fuel 0 _ w Hw Hd Hn)
      as (w' & E & H1 & H2 & _).
    exists w'. repeat split; assumption.
  - destruct (pressButton_live fuel 0 _ w Hw Hd Hn)
      as (w' & E & H1 & H2 & _).
    exists w'. repeat split; assumption.
  - rewrite handleEvent_escape by now rewrite Hcs.
    rewrite Hbs. cbn [find_button loose_eq_literal Button.type].
    change ("default" =? "cancel") with false. cbv iota.
    set (w2 := with_this (with_result VNull (with_cancelled true (this w))) w).
    exists (dismissed_world VUndefined w2).
    destruct (dismissed_world_dismissal VUndefined w2).
    split.
    + unfold bind, modify_this, modify. now apply dismiss_live.
    + repeat split; assumption.
  - destruct (pressContainer_live fuel w Hw Hd) as (w' & E & H1 & H2 & H3 & _).
    + now rewrite Hcs.
    + exists w'. repeat split; assumption.
Qed.

Lemma alert_button_and_dismissals_witness :
  window (page []) = true
  /\ exists w',
       handleEvent 2 13 notice = Returned tt w'
       /\ result (this w') = VNull.
Proof.
  split; [reflexivity|].
  destruct (alert_button_and_dismissals (VStr "info.svg") (VStr "Saved")
              VUndefined VUndefined VUndefined (page []) eq_refl)
    as (w1 & b & Hr & Hb & _ & _ & Hv & _ & Hall).
  assert (Ew : exec (alert (VStr "info.svg") (VStr "Saved") VUndefined
                       VUndefined VUndefined) (page []) = w1)
    by (unfold exec; now rewrite Hr).
  vm_compute in Ew. subst w1.
  destruct (Hall 0 notice eq_refl eq_refl eq_refl eq_refl)
    as ((w' & E & _ & Hres) & _).
  exists w'. split; [exact E|]. now rewrite Hres, Hv.
Defined.

(** C9, counterexample.  Escape dismisses the Active Dialog of
    [alert("Saved")] with [undefined], while the value of its button is
    [null]. *)
Lemma alert_escape_not_button_value :
  ~ resolves_with_button_value 2 (KeyDown 27) notice.
Proof.
  intros H.
  assert (E : fire 2 (KeyDown 27) notice = Returned tt notice_after_escape)
    by (vm_compute; reflexivity).
  destruct (H notice_after_escape E eq_refl) as (b & Hb & Hres).
  injection Hb as <-. discriminate Hres.
Qed.

(** * Further properties *)

(** ** Text fields *)

Lemma nth_error_list_update_same {A} (l : list A) n x y :
  nth_error l n = Some x -> nth_error (list_update n y l) n = Some y.
Proof.
  revert n. induction l as [|a tl IH]; intros [|n] H; try discriminate.
  - reflexivity.
  - cbn in *. now apply IH.
Qed.

Lemma nth_error_list_update_other {A} (l : list A) n m y :
  n <> m -> nth_error (list_update n y l) m = nth_error l m.
Proof.
  revert n m. induction l as [|a tl IH]; intros [|n] [|m] H;
    try reflexivity.
  - contradiction.
  - cbn. apply IH. congruence.
Qed.

(** X1. [addTextField] followed by [getTextFieldValue] at the new index
    gives back the value that was passed, or the empty string when that
    value is falsy; the fields added before keep their index and content. *)
Theorem addTextField_then_getTextFieldValue
  (value_ type_ placeholder_ : JSValue) (w : World) :
  exists w',
    addTextField value_ type_ placeholder_ w = Returned tt w'
    /\ List.length (textFields (this w'))
       = S (List.length (textFields (this w)))
    /\ getTextFieldValue (List.length (textFields (this w))) w'
       = Returned (if truthy value_ then value_ else VStr "") w'
    /\ forall i,
         i < List.length (textFields (this w)) ->
         nth_error (textFields (this w')) i
         = nth_error (textFields (this w)) i.
Proof.
  eexists. split; [reflexivity|]. cbn.
  split; [rewrite length_app; cbn; lia|].
  split.
  - unfold getTextFieldValue, bind, get. cbn.
    rewrite nth_error_snoc. reflexivity.
  - intros i Hi. now apply nth_error_app1.
Qed.

(** X2. [getTextFieldValue] at an index that has no text field throws a
    [TypeError] and changes nothing. *)
Theorem getTextFieldValue_out_of_range (index : nat) (w : World) :
  List.length (textFields (this w)) <= index ->
  getTextFieldValue index w = Thrown (TypeError "info is undefined") w.
Proof.
  intros H. unfold getTextFieldValue, bind, get.
  apply nth_error_None in H. now rewrite H.
Qed.

Lemma getTextFieldValue_out_of_range_witness :
  List.length (textFields (this ask)) <= 0
  /\ getTextFieldValue 0 ask = Thrown (TypeError "info is undefined") ask.
Proof.
  split; [apply Nat.le_refl|].
  apply (getTextFieldValue_out_of_range 0 ask). apply Nat.le_refl.
Defined.

(** ** Rendering *)



(** Without a [window] (and so without a [document]) [_show] throws before
    it has built anything. *)
Lemma _show_headless w :
  window w = false ->
  _show w = Thrown (ReferenceError "document") w.
Proof.
  intros Hw.
  unfold _show, createBackground, require_global.
  cbv [bind get]. now rewrite Hw.
Qed.



(** ** Pointer and field events *)

(** X4. A press on button [i] of a Dialog that is open in a browser invokes
    the callback of the button with its value first, then dismisses the
    Dialog with that value.  A button of type ["cancel"] sets [cancelled], so
    that ["cancelled"] is emitted; any other button with a value leaves an
    unset flag unset, so that ["complete"] is emitted.  Where there is no
    button [i], nothing happens. *)
Theorem button_press_dismisses (fuel i : nat) (w : World) :
  (nth_error (buttons (this w)) i = None ->
   pressButton fuel i w = Returned tt w)
  /\ forall b,
       window w = true ->
       dismissed (this w) = false ->
       nth_error (buttons (this w)) i = Some b ->
       exists w',
         pressButton (S (S fuel)) i w = Returned tt w'
         /\ dismissed (this w') = true
         /\ result (this w') = Button.value b
         /\ trace w'
            = trace w ++
              [ Called i (Button.value b);
                Emitted (outcome_event (cancelled (this w'))) (Button.value b);
                Emitted "closed" (Button.value b) ]
         /\ (loose_eq_literal (Button.type b) "cancel" = true ->
             cancelled (this w') = true)
         /\ (loose_eq_literal (Button.type b) "cancel" = false ->
             Button.value b <> VUndefined ->
             cancelled (this w) = false ->
             cancelled (this w') = false).
Proof.
  split.
  - intros Hn. unfold pressButton, bind, get. now rewrite Hn.
  - intros b Hw Hd Hn.
    destruct (pressButton_live fuel i b w Hw Hd Hn)
      as (w' & Hr & H1 & H2 & H3 & H4).
    exists w'. do 4 (split; [assumption|]). rewrite H3. split.
    + intros ->. now rewrite orb_true_r.
    + intros -> Hv ->. destruct (Button.value b); try reflexivity.
      contradiction.
Qed.

Lemma button_press_dismisses_witness :
  exists w',
    pressButton 2 2 choice = Returned tt w'
    /\ result (this w') = VStr "N"
    /\ cancelled (this w') = true
    /\ trace w' = [ Emitted "opened" VUndefined;
                    Called 2 (VStr "N");
                    Emitted "cancelled" (VStr "N");
                    Emitted "closed" (VStr "N") ].
Proof.
  destruct (button_press_dismisses 0 2 choice) as [_ H].
  destruct (H (Button.mk (VStr "No") (VStr "N") (VStr "cancel") 2)
              eq_refl eq_refl eq_refl)
    as (w' & Hr & _ & Hres & Ht & Hc & _).
  exists w'. split; [exact Hr|]. split; [exact Hres|].
  split; [exact (Hc eq_refl)|].
  rewrite Ht, (Hc eq_refl). reflexivity.
Defined.

(** X5. A press on the backdrop (the container) does nothing to a Dialog
    whose [cancelable] is falsy.  Otherwise it dismisses a Dialog that is
    open in a browser without a value: [cancelled] is set and ["cancelled"]
    is emitted before ["closed"], both with [undefined]. *)
Theorem backdrop_press_cancels (fuel : nat) (w : World) :
  (truthy (cancelable (this w)) = false ->
   pressContainer fuel w = Returned tt w)
  /\ (window w = true ->
      dismissed (this w) = false ->
      truthy (cancelable (this w)) = true ->
      exists w',
        pressContainer (S (S fuel)) w = Returned tt w'
        /\ dismissed (this w') = true
        /\ result (this w') = VUndefined
        /\ cancelled (this w') = true
        /\ trace w' = trace w ++ [ Emitted "cancelled" VUndefined;
                                   Emitted "closed" VUndefined ]).
Proof.
  split.
  - intros Hc. unfold pressContainer, bind, get. now rewrite Hc.
  - apply pressContainer_live.
Qed.

Lemma backdrop_press_cancels_witness :
  pressContainer 2 (busy VUndefined) = Returned tt (busy VUndefined)
  /\ exists w',
       pressContainer 2 (busy (VBool true)) = Returned tt w'
       /\ cancelled (this w') = true.
Proof.
  split.
  - destruct (backdrop_press_cancels 2 (busy VUndefined)) as [H _].
    apply H. reflexivity.
  - destruct (backdrop_press_cancels 0 (busy (VBool true))) as [_ H].
    destruct (H eq_refl eq_refl eq_refl) as (w' & Hr & _ & _ & Hc & _).
    exists w'. split; assumption.
Defined.



(** ** Keys *)

Lemma emissions_snoc_other name tr e :
  (forall n v, e <> Emitted n v) ->
  emissions name (tr ++ [e]) = emissions name tr.
Proof.
  intros He. rewrite emissions_app.
  destruct e as [n v| |]; [now elim (He n v)|apply Nat.add_0_r..].
Qed.

(** X7. [handleEvent] on a Dialog that is already dismissed emits nothing and
    leaves the flag set, yet it is not a no-op.  On Enter the first default
    button still gets [preventDefault] and its callback, invoked with the
    result stored earlier.  On Escape a cancelable Dialog has its stored
    result overwritten with [null] and [cancelled] set. *)
Theorem handleEvent_after_dismissal (fuel : nat) (w : World) :
  dismissed (this w) = true ->
  (forall i b,
     first_of_type "default" (buttons (this w)) i b ->
     exists w',
       handleEvent (S fuel) 13 w = Returned tt w'
       /\ this w' = this w
       /\ trace w' = trace w ++ [PreventDefault; Called i (result (this w))])
  /\ (truthy (cancelable (this w)) = true ->
      exists w',
        handleEvent (S fuel) 27 w = Returned tt w'
        /\ dismissed (this w') = true
        /\ result (this w') = VNull
        /\ cancelled (this w') = true
        /\ forall name,
             emissions name (trace w') = emissions name (trace w)).
Proof.
  intros Hd. split.
  - intros i b Hf.
    rewrite (handleEvent_enter_found _ _ i b)
      by apply (find_button_first _ _ 0 i b Hf).
    destruct Hf as (Hn & _).
    rewrite (bind_returned _ _ _ _ _ (dismiss_guard fuel _ w Hd)).
    unfold bind at 1. unfold log at 1, modify at 1.
    unfold callback_with_result, bind at 1. unfold get at 1.
    cbn [this with_trace]. rewrite Hn.
    unfold call_callback, bind, log, modify.
    rewrite resolve_promise_eq.
    eexists. split; [reflexivity|].
    match goal with
    | |- this (resolve_pure ?p ?v ?x) = _ /\ _ =>
        destruct (resolve_pure_same p v x) as [-> -> _ _ _ _ _]
    end.
    cbn. now rewrite <- app_assoc.
  - intros Hc. rewrite (handleEvent_escape _ _ Hc).
    set (w0 := with_this (with_result VNull (with_cancelled true (this w))) w).
    assert (Hd0 : dismissed (this w0) = true) by exact Hd.
    destruct (find_button "cancel" 0 (buttons (this w))) as [[i b]|] eqn:Hf.
    + apply find_button_found in Hf. destruct Hf as (_ & Hn & _).
      rewrite Nat.sub_0_r in Hn.
      rewrite (bind_returned _ _ _ _ _ (dismiss_guard fuel _ w0 Hd0)).
      unfold bind at 1. unfold log at 1, modify at 1.
      unfold callback_with_result, bind at 1. unfold get at 1.
      cbn [this with_trace w0 with_this buttons with_result with_cancelled].
      rewrite Hn.
      unfold call_callback, bind, log, modify.
      rewrite resolve_promise_eq.
      eexists. split; [reflexivity|].
      match goal with
      | |- dismissed (this (resolve_pure ?p ?v ?x)) = _ /\ _ =>
          destruct (resolve_pure_same p v x) as [-> -> _ _ _ _ _]
      end.
      cbn -[emissions]. repeat split; try assumption.
      intros name.
      rewrite !emissions_snoc_other by (intros; discriminate). reflexivity.
    + unfold bind, modify_this, modify.
      rewrite dismiss_guard by exact Hd.
      eexists. split; [reflexivity|]. cbn. repeat split; assumption.
Qed.

Lemma handleEvent_after_dismissal_witness :
  let w := exec (dismiss 2 (VStr "done")) choice in
  dismissed (this w) = true
  /\ result (this w) = VStr "done"
  /\ exists w',
       handleEvent 1 27 w = Returned tt w'
       /\ result (this w') = VNull.
Proof.
  intros w. split; [reflexivity|]. split; [reflexivity|].
  destruct (handleEvent_after_dismissal 0 w eq_refl) as [_ H].
  destruct (H eq_refl) as (w' & Hr & _ & Hres & _).
  exists w'. split; assumption.
Defined.

(** ** Teardown *)

Lemma mem_nat_remove_nat n l : mem_nat n (remove_nat n l) = false.
Proof.
  unfold mem_nat, remove_nat.
  induction l as [|m tl IH]; [reflexivity|].
  cbn. destruct (Nat.eqb m n) eqn:E; cbn; [exact IH|].
  rewrite Nat.eqb_sym, E. exact IH.
Qed.

(** X8. Without a [window] global a first [dismiss] throws a
    [ReferenceError] at [window.removeEventListener]: by then the flag is
    set and the result is stored, but nothing was emitted; and since the
    flag is set, every later [dismiss] returns without emitting either. *)
Theorem dismiss_without_window (fuel : nat) (r : JSValue) (w : World) :
  window w = false ->
  dismissed (this w) = false ->
  exists w',
    dismiss (S fuel) r w = Thrown (ReferenceError "window") w'
    /\ dismissed (this w') = true
    /\ result (this w') = r
    /\ cancelled (this w') = cancelled (this w) || typeof_undefined r
    /\ trace w' = trace w
    /\ forall fuel' r', dismiss (S fuel') r' w' = Returned tt w'.
Proof.
  intros Hw Hd. exists (before_unlisten r w).
  destruct (before_unlisten_teardown r w).
  split; [now apply dismiss_headless|].
  repeat split; try assumption.
  intros fuel' r'. now apply dismiss_guard.
Qed.

Lemma dismiss_without_window_witness :
  window node = false /\ dismissed (this node) = false
  /\ exists w',
       dismiss 1 VUndefined node = Thrown (ReferenceError "window") w'
       /\ trace w' = [].
Proof.
  split; [reflexivity|]. split; [reflexivity|].
  destruct (dismiss_without_window 0 VUndefined node eq_refl eq_refl)
    as (w' & Hr & _ & _ & _ & Ht & _).
  exists w'. split; assumption.
Defined.

(** X9. After a first [dismiss] in a browser the Dialog no longer listens to
    [keydown]: no key reaches it any more, whatever the key. *)
Theorem dismiss_stops_listening (fuel : nat) (r : JSValue) (w : World) :
  window w = true ->
  dismissed (this w) = false ->
  exists w',
    dismiss (S (S fuel)) r w = Returned tt w'
    /\ mem_nat (oid (this w')) (keydown w') = false
    /\ forall fuel' k, fire fuel' (KeyDown k) w' = Returned tt w'.
Proof.
  intros Hw Hd. exists (dismissed_world r w).
  destruct (dismissed_world_dismissal r w).
  assert (Hk : mem_nat (oid (this (dismissed_world r w)))
                 (keydown (dismissed_world r w)) = false)
    by (rewrite dm_oid0, dm_keydown0; apply mem_nat_remove_nat).
  split; [now apply dismiss_live|].
  split; [exact Hk|].
  intros fuel' k. unfold fire, bind, get. now rewrite Hk.
Qed.

Lemma dismiss_stops_listening_witness :
  window choice = true /\ dismissed (this choice) = false
  /\ mem_nat (oid (this choice)) (keydown choice) = true
  /\ exists w',
       dismiss 2 (VStr "done") choice = Returned tt w'
       /\ fire 2 (KeyDown 13) w' = Returned tt w'.
Proof.
  do 3 (split; [reflexivity|]).
  destruct (dismiss_stops_listening 0 (VStr "done") choice eq_refl eq_refl)
    as (w' & Hr & _ & Hk).
  exists w'. split; [exact Hr | apply Hk].
Defined.

Lemma exec_removeElements_eq w :
  exec removeElements w
  = if container (elems (this w))
    then with_timers (timers w ++ [TRemoveElements (oid (this w))])
           (with_this
              (with_elems
                 (mkElems (background (elems (this w)))
                    (container (elems (this w))) true)
                 (this w)) w)
    else w.
Proof.
  unfold exec, removeElements, bind, get, modify_this, modify, setTimeout.
  destruct (container (elems (this w))) eqn:Hc; cbn; rewrite ?Hc;
    reflexivity.
Qed.

Lemma before_unlisten_elements r w :
  timers (before_unlisten r w)
  = timers w ++ (if container (elems (this w))
                 then [TRemoveElements (oid (this w))] else [])
  /\ elems (this (before_unlisten r w))
     = if container (elems (this w))
       then mkElems (background (elems (this w))) true true
       else elems (this w).
Proof.
  unfold before_unlisten.
  destruct (exec_Queue_remove (oid (this w))
              (with_this (with_dismissed true (this w)) w)) as [ms ->].
  rewrite exec_when_cancelled, exec_removeElements_eq. cbn.
  destruct (container (elems (this w))) eqn:Hc; cbn;
    rewrite ?Hc, ?app_nil_r; split; reflexivity.
Qed.

(** X10. [removeElements] does nothing on a Dialog that was never rendered.
    Accordingly a first [dismiss] in a browser schedules the removal of the
    elements, and fades them, exactly when the Dialog was rendered; a Dialog
    dismissed while it waits in the queue gets no timer and keeps its
    (empty) set of elements. *)
Theorem dismiss_removes_rendered_elements
  (fuel : nat) (r : JSValue) (w : World) :
  (container (elems (this w)) = false -> removeElements w = Returned tt w)
  /\ (window w = true ->
      dismissed (this w) = false ->
      exists w',
        dismiss (S (S fuel)) r w = Returned tt w'
        /\ timers w'
           = timers w ++ (if container (elems (this w))
                          then [TRemoveElements (oid (this w))] else [])
        /\ elems (this w')
           = if container (elems (this w))
             then mkElems (background (elems (this w))) true true
             else elems (this w)).
Proof.
  split.
  - intros Hc. unfold removeElements, bind, get. now rewrite Hc.
  - intros Hw Hd. exists (dismissed_world r w).
    split; [now apply dismiss_live|].
    destruct (before_unlisten_elements r w) as [Ht He].
    unfold dismissed_world.
    set (n := outcome_event _).
    destruct (emit_pure_same n r (torn_down r w)) as [A1 _ _ _ _ _ A7].
    destruct (emit_pure_same "closed" r (emit_pure n r (torn_down r w)))
      as [B1 _ _ _ _ _ B7].
    cbn -[torn_down emit_pure] in A1, A7, B1, B7.
    rewrite B7, A7, B1, A1. unfold torn_down. cbn -[before_unlisten].
    split; assumption.
Qed.

Lemma dismiss_removes_rendered_elements_witness :
  (exists w',
     dismiss 2 VUndefined reentrant = Returned tt w' /\ timers w' = [])
  /\ exists w',
       dismiss 2 VUndefined choice = Returned tt w'
       /\ timers w' = [TAnimate 1; TAnimate 1; TRemoveElements 1].
Proof.
  split.
  - destruct (dismiss_removes_rendered_elements 0 VUndefined reentrant)
      as [_ H].
    destruct (H eq_refl eq_refl) as (w' & Hr & Ht & _).
    exists w'. split; [exact Hr | exact Ht].
  - destruct (dismiss_removes_rendered_elements 0 VUndefined choice)
      as [_ H].
    destruct (H eq_refl eq_refl) as (w' & Hr & Ht & _).
    exists w'. split; [exact Hr | exact Ht].
Defined.

(** ** The Dialogs the constructors build *)

Ltac run_constructor Hq :=
  cbv [bind new_JSAlert addButton addTextField new_promise show Queue_add
       get modify modify_this setIcon enqueue ret when_ then_ when on
       promise_then];
  cbn; rewrite ?Hq; cbn.

Lemma confirm_in_browser question text_ title_ icon acceptText rejectText w0 :
  window w0 = true ->
  exists w1,
    confirm question text_ title_ icon acceptText rejectText w0
    = Returned (RDialog (next_oid w0)) w1
    /\ buttons (this w1)
       = [ Button.mk (default_arg acceptText (VStr "OK")) (VBool true)
             (VStr "default") (List.length (promises w0));
           Button.mk (default_arg rejectText (VStr "Cancel")) (VBool false)
             (VStr "normal") (S (List.length (promises w0))) ]
    /\ textFields (this w1) = []
    /\ dismissed (this w1) = false
    /\ cancelled (this w1) = false
    /\ cancelable (this w1) = VBool true
    /\ iconURL (this w1)
       = (if not_false icon then js_or icon question else VNull)
    /\ popupQueue w1 = popupQueue w0 ++ [next_oid w0].
Proof.
  intros Hw. unfold confirm, bind at 1. unfold get at 1. rewrite Hw.
  cbn [negb].
  destruct (not_false icon); destruct (popupQueue w0) eqn:Hq;
    run_constructor Hq; rewrite ?length_app; cbn; rewrite ?Nat.add_1_r;
    eexists; repeat split.
Qed.

Lemma loader_in_browser text_ cancelable_ w0 :
  window w0 = true ->
  exists w1,
    loader text_ cancelable_ w0 = Returned (RDialog (next_oid w0)) w1
    /\ buttons (this w1) = []
    /\ textFields (this w1) = []
    /\ dismissed (this w1) = false
    /\ cancelled (this w1) = false
    /\ cancelable (this w1) = cancelable_
    /\ iconURL (this w1) = VNull
    /\ title (this w1) = VStr ""
    /\ popupQueue w1 = popupQueue w0 ++ [next_oid w0].
Proof.
  intros Hw. unfold loader, bind at 1. unfold get at 1. rewrite Hw.
  cbn [negb].
  destruct (popupQueue w0) eqn:Hq; run_constructor Hq;
    eexists; repeat split.
Qed.

Lemma prompt_in_browser
  question text_ defaultText placeholderText title_ icon acceptText
  rejectText w0 :
  window w0 = true ->
  exists p w1,
    prompt question text_ defaultText placeholderText title_ icon acceptText
      rejectText w0
    = Returned (RPromise p) w1
    /\ buttons (this w1)
       = [ Button.mk (default_arg acceptText (VStr "OK")) (VBool true)
             (VStr "default") (List.length (promises w0));
           Button.mk (default_arg rejectText (VStr "Cancel")) (VBool false)
             (VStr "cancel") (S (List.length (promises w0))) ]
    /\ textFields (this w1)
       = [ TextField.mk (js_or defaultText (VStr "")) (VStr "text")
             (js_or placeholderText (VStr "")) None ]
    /\ dismissed (this w1) = false
    /\ cancelled (this w1) = false
    /\ cancelable (this w1) = VBool true
    /\ iconURL (this w1)
       = (if not_false icon then js_or icon question else VNull)
    /\ popupQueue w1 = popupQueue w0 ++ [next_oid w0].
Proof.
  intros Hw. unfold prompt, bind at 1. unfold get at 1. rewrite Hw.
  cbn [negb].
  destruct (not_false icon); destruct (popupQueue w0) eqn:Hq;
    run_constructor Hq; rewrite ?length_app; cbn; rewrite ?Nat.add_1_r;
    match goal with
    | |- context [nth_error ?l ?n] => destruct (nth_error l n) as [[| |]|]
    end;
    cbn; do 2 eexists; repeat split.
Qed.







(** X14. The icon of the Dialog a constructor builds in a browser: [alert],
    [confirm] and [prompt] set no icon when the icon argument is [false],
    set their own icon (information for [alert], question for the two
    others) when it is any other falsy value, and set the argument itself
    otherwise; [loader] never sets an icon. *)
Theorem constructors_choose_icon
  (info question : JSValue) (w0 : World)
  (text_ title_ icon closeText acceptText rejectText defaultText
     placeholderText cancelable_ : JSValue) :
  window w0 = true ->
  let chosen own :=
    match icon with
    | VBool false => VNull
    | _ => if truthy icon then icon else own
    end in
  iconURL (this (exec (alert info text_ title_ icon closeText) w0))
  = chosen info
  /\ iconURL (this (exec (confirm question text_ title_ icon acceptText
                            rejectText) w0))
     = chosen question
  /\ iconURL (this (exec (prompt question text_ defaultText placeholderText
                            title_ icon acceptText rejectText) w0))
     = chosen question
  /\ iconURL (this (exec (loader text_ cancelable_) w0)) = VNull.
Proof.
  intros Hw0 chosen.
  destruct (confirm_in_browser question text_ title_ icon acceptText
              rejectText w0 Hw0) as (w2 & E2 & _ & _ & _ & _ & _ & I2 & _).
  destruct (prompt_in_browser question text_ defaultText placeholderText
              title_ icon acceptText rejectText w0 Hw0)
    as (p & w3 & E3 & _ & _ & _ & _ & _ & I3 & _).
  destruct (loader_in_browser text_ cancelable_ w0 Hw0)
    as (w4 & E4 & _ & _ & _ & _ & _ & I4 & _).
  unfold exec at 2 3 4. rewrite E2, E3, E4, I2, I3, I4.
  assert (Hc : forall own,
    (if not_false icon then js_or icon own else VNull) = chosen own).
  { intros own. unfold chosen, js_or.
    destruct icon as [| |[|]| |]; reflexivity. }
  rewrite !Hc. split; [|repeat split].
  rewrite <- Hc. unfold exec, alert, bind at 1. unfold get at 1.
  rewrite Hw0. cbn [negb].
  destruct (not_false icon); destruct (popupQueue w0) eqn:Hq;
    run_constructor Hq; reflexivity.
Qed.

Lemma constructors_choose_icon_witness :
  window (page []) = true
  /\ iconURL (this (exec (alert (VStr "info.svg") (VStr "Saved") VUndefined
                            (VBool false) VUndefined) (page [])))
     = VNull
  /\ iconURL (this (exec (alert (VStr "info.svg") (VStr "Saved") VUndefined
                            (VStr "") VUndefined) (page [])))
     = VStr "info.svg".
Proof.
  split; [reflexivity|]. split.
  - apply (constructors_choose_icon (VStr "info.svg") VNull (page [])
             (VStr "Saved") VUndefined (VBool false) VUndefined VUndefined
             VUndefined VUndefined VUndefined VUndefined eq_refl).
  - apply (constructors_choose_icon (VStr "info.svg") VNull (page [])
             (VStr "Saved") VUndefined (VStr "") VUndefined VUndefined
             VUndefined VUndefined VUndefined VUndefined eq_refl).
Defined.

(** ** The promise of a button *)

(** A settled promise stays as it is. *)
Lemma resolve_pure_settled q x p s w :
  s <> Pending ->
  nth_error (promises w) p = Some s ->
  nth_error (promises (resolve_pure q x w)) p = Some s.
Proof.
  intros Hs Hp. unfold resolve_pure.
  destruct (nth_error (promises w) q) as [[| |]|] eqn:Hq; try assumption.
  cbn. rewrite nth_error_list_update_other; [assumption|].
  intros ->. rewrite Hp in Hq. congruence.
Qed.

Lemma settle_handlers_settled payload hs p s :
  s <> Pending ->
  forall w,
    nth_error (promises w) p = Some s ->
    nth_error (promises (settle_handlers payload hs w)) p = Some s.
Proof.
  intros Hs. induction hs as [|[o|q] tl IH]; intros w Hp; cbn.
  - assumption.
  - now apply IH.
  - apply IH. now apply resolve_pure_settled.
Qed.

Lemma dismissed_world_settled r p s w :
  s <> Pending ->
  nth_error (promises w) p = Some s ->
  nth_error (promises (dismissed_world r w)) p = Some s.
Proof.
  intros Hs Hp. unfold dismissed_world, emit_pure.
  apply settle_handlers_settled; [assumption|]. cbn -[torn_down].
  apply settle_handlers_settled; [assumption|]. cbn -[torn_down].
  now rewrite (td_promises _ _ _ (torn_down_teardown r w)).
Qed.

(** X15. The promise [addButton] returns is pending, and its resolver is the
    callback of the new button.  A press on a button of a Dialog that is
    open in a browser fulfils the promise of that button with the value of
    the button when it is still pending, and leaves a promise that is
    already settled as it is. *)
Theorem button_promise_fulfilled_by_press :
  (forall text_ value_ type_ w0,
     exists p w1 b,
       addButton text_ value_ type_ w0 = Returned p w1
       /\ nth_error (promises w1) p = Some Pending
       /\ nth_error (buttons (this w1)) (List.length (buttons (this w0)))
          = Some b
       /\ Button.callback b = p)
  /\ forall fuel i b s w,
       window w = true ->
       dismissed (this w) = false ->
       nth_error (buttons (this w)) i = Some b ->
       nth_error (promises w) (Button.callback b) = Some s ->
       exists w',
         pressButton (S (S fuel)) i w = Returned tt w'
         /\ nth_error (promises w') (Button.callback b)
            = Some (match s with
                    | Pending => Fulfilled (Button.value b)
                    | _ => s
                    end).
Proof.
  split.
  - intros text_ value_ type_ w0. do 3 eexists.
    split; [reflexivity|]. cbn.
    split; [apply nth_error_snoc|].
    split; [apply nth_error_snoc | reflexivity].
  - intros fuel i b s w Hw Hd Hn Hp.
    set (v := Button.value b).
    set (w1 := resolve_pure (Button.callback b) v
                 (with_trace (trace w ++ [Called i v]) w)).
    set (w2 := exec (when_ (loose_eq_literal (Button.type b) "cancel")
                       (modify_this (with_cancelled true))) w1).
    destruct (resolve_pure_same (Button.callback b) v
                (with_trace (trace w ++ [Called i v]) w))
      as [T1 _ T3 _ _ _ _].
    fold w1 in T1, T3. cbn in T1, T3.
    assert (E2 : w2 = with_this
                   (with_cancelled
                      (cancelled (this w)
                       || loose_eq_literal (Button.type b) "cancel")
                      (this w)) w1).
    { unfold w2. now rewrite exec_when_cancelled, T1. }
    assert (P1 : nth_error (promises w1) (Button.callback b)
                 = Some (match s with
                         | Pending => Fulfilled v
                         | _ => s
                         end)).
    { unfold w1, resolve_pure. cbn. rewrite Hp.
      destruct s; cbn; try assumption.
      now apply nth_error_list_update_same with (x := Pending). }
    exists (dismissed_world v w2). split.
    + unfold pressButton. unfold bind at 1. unfold get at 1. rewrite Hn.
      unfold call_callback. unfold bind at 1. unfold bind at 1.
      unfold log at 1, modify at 1.
      rewrite resolve_promise_eq. fold v. fold w1.
      rewrite (bind_returned _ _ _ _ _ (when_modify_total _ _ _)). fold w2.
      apply dismiss_live; rewrite E2; cbn; congruence.
    + apply dismissed_world_settled; [destruct s; discriminate|].
      rewrite E2. exact P1.
Qed.

Lemma button_press_fulfils_promise_of_ask :
  exists w',
    pressButton 2 0 ask = Returned tt w'
    /\ nth_error (promises w') 0 = Some (Fulfilled (VStr "X")).
Proof.
  destruct button_promise_fulfilled_by_press as [_ H].
  destruct (H 0 0 (Button.mk (VStr "OK") (VStr "X") (VStr "default") 0)
              Pending ask eq_refl eq_refl eq_refl eq_refl)
    as (w' & Hr & Hp).
  exists w'. split; assumption.
Defined.

(** ** The lifetime of a Dialog *)




















(** ** Several buttons *)

Lemma addButton_appends text_ value_ w :
  exists p w' b,
    addButton text_ value_ VUndefined w = Returned p w'
    /\ buttons (this w') = buttons (this w) ++ [b]
    /\ Button.text b = text_
    /\ Button.type b
       = match buttons (this w) with
         | [] => VStr "default"
         | _ :: _ => VStr "normal"
         end
    /\ Button.value b
       = match value_ with VUndefined => text_ | _ => value_ end.
Proof.
  do 3 eexists. split; [reflexivity|]. cbn.
  do 2 (split; [reflexivity|]).
  split; [destruct (buttons (this w)) | destruct value_]; reflexivity.
Qed.

Lemma addButtons_normal l :
  forall w,
    buttons (this w) <> [] ->
    exists w' tl,
      addButtons l w = Returned tt w'
      /\ buttons (this w') = buttons (this w) ++ tl
      /\ List.length tl = List.length l
      /\ Forall (fun b => Button.type b = VStr "normal") tl.
Proof.
  induction l as [|[t v] rest IH]; intros w Hne.
  - exists w, []. rewrite app_nil_r. repeat split. constructor.
  - cbn [addButtons].
    destruct (addButton_appends t v w)
      as (p & w1 & b & E & Hb & _ & Hty & _).
    rewrite (bind_returned _ _ _ _ _ E).
    destruct (buttons (this w)) as [|b0 bs] eqn:Hbs; [contradiction|].
    destruct (IH w1) as (w' & tl & E' & Hb' & Hl & Hn).
    { rewrite Hb. discriminate. }
    exists w', (b :: tl). split; [exact E'|].
    split; [rewrite Hb', Hb, <- app_assoc; reflexivity|].
    split; [cbn; now rewrite Hl|].
    constructor; assumption.
Qed.

(** X17. When buttons are added without a type to a Dialog that has none,
    the first one becomes the default button and every later one a normal
    button, however many follow: the Dialog ends up with exactly one default
    button, its first, which is therefore the one Enter chooses. *)
Theorem first_added_button_is_the_default
  (text_ value_ : JSValue) (rest : list (JSValue * JSValue)) (w : World) :
  buttons (this w) = [] ->
  exists w' b0,
    addButtons ((text_, value_) :: rest) w = Returned tt w'
    /\ List.length (buttons (this w')) = S (List.length rest)
    /\ Button.text b0 = text_
    /\ Button.value b0
       = match value_ with VUndefined => text_ | _ => value_ end
    /\ find_button "default" 0 (buttons (this w')) = Some (0, b0)
    /\ forall i b,
         nth_error (buttons (this w')) i = Some b ->
         (loose_eq_literal (Button.type b) "default" = true <-> i = 0).
Proof.
  intros He. cbn [addButtons].
  destruct (addButton_appends text_ value_ w)
    as (p & w1 & b0 & E & Hb & Htx & Hty & Hv).
  rewrite He in Hb, Hty. cbn in Hb.
  rewrite (bind_returned _ _ _ _ _ E).
  destruct (addButtons_normal rest w1) as (w' & tl & E' & Hb' & Hl & Hn).
  { rewrite Hb. discriminate. }
  rewrite Hb in Hb'. cbn in Hb'.
  exists w', b0. split; [exact E'|]. rewrite Hb'.
  split; [cbn; now rewrite Hl|].
  split; [exact Htx|]. split; [exact Hv|].
  split; [cbn; now rewrite Hty|].
  intros [|i] b Hi; cbn in Hi.
  - injection Hi as <-. rewrite Hty. split; reflexivity.
  - split; [|discriminate].
    apply nth_error_In in Hi.
    rewrite Forall_forall in Hn. rewrite (Hn b Hi). discriminate.
Qed.

Lemma first_added_button_is_the_default_witness :
  let w := exec (new_JSAlert (VStr "Which?") VUndefined) (page []) in
  buttons (this w) = []
  /\ exists w',
       addButtons [(VStr "Yes", VUndefined); (VStr "No", VBool false);
                   (VStr "Later", VNull)] w
       = Returned tt w'
       /\ find_button "default" 0 (buttons (this w'))
          = Some (0, Button.mk (VStr "Yes") (VStr "Yes") (VStr "default") 0).
Proof.
  intros w. split; [reflexivity|].
  destruct (first_added_button_is_the_default (VStr "Yes") VUndefined
              [(VStr "No", VBool false); (VStr "Later", VNull)] w eq_refl)
    as (w' & b0 & E & _ & _ & _ & Hf & _).
  exists w'. split; [exact E|].
  pose proof E as E'. vm_compute in E'. injection E' as Ew.
  rewrite <- Ew in Hf. vm_compute in Hf. injection Hf as <-.
  rewrite <- Ew. reflexivity.
Defined.

(** ** Awaiting a Dialog *)

Ltac run_await :=
  vm_compute; reflexivity.

Lemma await_session_congr info question c t t' fuel w :
  (forall v, fire fuel t v = fire fuel t' v) ->
  await_session info question c t fuel w
  = await_session info question c t' fuel w.
Proof.
  intros H. unfold await_session.
  do 3 (apply bind_ext; intros ? ?).
  unfold bind at 1 3. now rewrite H.
Qed.

Ltac split_icon :=
  match goal with
  | |- context [ByAlert _ _ ?icon _] =>
      destruct icon as [| |[|]| |]
  | |- context [ByConfirm _ _ ?icon _ _] =>
      destruct icon as [| |[|]| |]
  | |- context [ByLoader _ ?c] =>
      destruct c as [| |[|]|[|?|?]|[|? ?]]
  end.

Lemma await_session_outcome info question c (waiting : bool) t fuel :
  await_outcome
    (await_session info question c t (4 + fuel)
       (page (if waiting then [0] else []))).
Proof.
  destruct t as [k| |i|idx k|r|tm].
  - destruct (Z.eq_dec k 13) as [->|N13];
      [destruct c; split_icon; destruct waiting; run_await|].
    destruct (Z.eq_dec k 27) as [->|N27];
      [destruct c; split_icon; destruct waiting; run_await|].
    rewrite (await_session_congr _ _ _ _ (KeyDown 0))
      by (intros; now apply fire_other_key).
    destruct c; split_icon; destruct waiting; run_await.
  - destruct c; split_icon; destruct waiting; run_await.
  - destruct i as [|[|[|i]]]; destruct c; split_icon; destruct waiting;
      run_await.
  - destruct idx as [|idx]; destruct c; split_icon; destruct waiting;
      run_await.
  - destruct r; destruct c; split_icon; destruct waiting; run_await.
  - destruct tm as [[|[|dlg]] tmo| |]; destruct c; split_icon;
      destruct waiting; run_await.
Qed.

(** X18. A Dialog returned by [alert], [confirm] or [loader] can be awaited:
    the promise [then] gives for it is pending while the Dialog is open, and
    once the Dialog has closed and the microtasks have run it is fulfilled
    with the result of the Dialog.  This holds on a fresh page for every
    argument list and every trigger, whether the Dialog was rendered or was
    still waiting in the queue. *)
Theorem awaited_dialog_yields_result
  (info question : JSValue) (c : Construction) (waiting : bool)
  (t : Trigger) (fuel : nat) :
  exists p w',
    await_session info question c t (4 + fuel)
      (page (if waiting then [0] else []))
    = Returned p w'
    /\ (dismissed (this w') = true ->
        nth_error (promises w') p = Some (Fulfilled (result (this w'))))
    /\ (dismissed (this w') = false ->
        nth_error (promises w') p = Some Pending).
Proof.
  pose proof (await_session_outcome info question c waiting t fuel) as H.
  unfold await_outcome in H.
  destruct (await_session _ _ _ _ _ _) as [p w'| |]; try contradiction.
  exists p, w'. split; [reflexivity|].
  rewrite H. split; intros ->; reflexivity.
Qed.

Lemma awaited_dialog_yields_result_witness :
  let session t :=
    await_session (VStr "info.svg") (VStr "question.svg")
      (ByConfirm (VStr "Sure?") VUndefined VUndefined VUndefined VUndefined)
      t 4 (page []) in
  (exists p w',
     session (KeyDown 13) = Returned p w'
     /\ nth_error (promises w') p = Some (Fulfilled (VBool true)))
  /\ (exists p w',
        session (PressButton 1) = Returned p w'
        /\ nth_error (promises w') p = Some (Fulfilled (VBool false))).
Proof.
  intros session. split.
  - destruct (awaited_dialog_yields_result (VStr "info.svg")
                (VStr "question.svg")
                (ByConfirm (VStr "Sure?") VUndefined VUndefined VUndefined
                   VUndefined) false (KeyDown 13) 0)
      as (p & w' & Hr & Hd & _).
    pose proof Hr as Hv. vm_compute in Hv. injection Hv as _ Hw.
    exists p, w'. split; [exact Hr|].
    rewrite Hd by (rewrite <- Hw; reflexivity).
    rewrite <- Hw. reflexivity.
  - destruct (awaited_dialog_yields_result (VStr "info.svg")
                (VStr "question.svg")
                (ByConfirm (VStr "Sure?") VUndefined VUndefined VUndefined
                   VUndefined) false (PressButton 1) 0)
      as (p & w' & Hr & Hd & _).
    pose proof Hr as Hv. vm_compute in Hv. injection Hv as _ Hw.
    exists p, w'. split; [exact Hr|].
    rewrite Hd by (rewrite <- Hw; reflexivity).
    rewrite <- Hw. reflexivity.
Defined.
